(** * Logistics service: the request handlers of [app/app.py]

    A shallow embedding of the Flask handlers over the three process-wide
    dictionaries [shipments], [inventory] and [orders], followed by the
    properties of the service's specification.

    Conventions of the embedding:
    - a request body is the value [request.get_json()] returns: any JSON
      value, [JNull] standing for Python's [None];
    - a handler is a function from the store to either a new store and a
      response, or the Python exception that escapes the handler;
    - [datetime.utcnow().isoformat()] is an input of the handler that reads
      it (one argument per read, in reading order);
    - Flask turns an exception that escapes a handler into the response of
      the registered 500 handler ([handle] below). *)

From Stdlib Require Import ZArith List String Ascii Bool Lia.
From Stdlib Require Import SpecFloat.
Import ListNotations.

Set Warnings "-register-all".

Local Open Scope string_scope.
Local Open Scope Z_scope.

(** ** JSON values as Python objects *)

(** The result of [json.loads]: [None], [bool], [int], [float], [str],
    [list], [dict].  A float is an IEEE 754 value: signed zero, signed
    infinity, NaN, or [(-1)^s * m * 2^e].  A string is its UTF-8 bytes. *)
Inductive json : Type :=
| JNull
| JBool (b : bool)
| JInt (n : Z)
| JFloat (f : spec_float)
| JStr (s : string)
| JList (l : list json)
| JDict (d : list (string * json)).

(** The exceptions the handlers can meet. *)
Inductive exn : Type :=
| TypeError
| KeyError
| ValueError
| OverflowError
| AttributeError.

(** An expression either evaluates to a value or raises. *)
Inductive result (A : Type) : Type :=
| Ok (a : A)
| Raise (e : exn).

Arguments Ok {A} a.
Arguments Raise {A} e.

Definition bind {A B : Type} (r : result A) (k : A -> result B) : result B :=
  match r with
  | Ok a => k a
  | Raise e => Raise e
  end.

Notation "x <- r ;; k" := (bind r (fun x => k))
  (at level 61, r at next level, right associativity).
Notation "' p <- r ;; k" := (bind r (fun x => let p := x in k))
  (at level 61, p pattern, r at next level, right associativity).

(** [bool(v)]: the truth value Python gives [v] in [not data]. *)
Definition truthy (v : json) : bool :=
  match v with
  | JNull => false
  | JBool b => b
  | JInt n => negb (n =? 0)
  | JFloat (S754_zero _) => false
  | JFloat _ => true
  | JStr s => negb (String.eqb s "")
  | JList l => match l with [] => false | _ => true end
  | JDict d => match d with [] => false | _ => true end
  end.

(** Lookup in a JSON object ([json.loads] keeps one binding per key). *)
Fixpoint assoc (k : string) (d : list (string * json)) : option json :=
  match d with
  | [] => None
  | (k', v) :: d' => if String.eqb k' k then Some v else assoc k d'
  end.

(** [k in s] for two strings: [k] occurs in [s] as a substring. *)
Fixpoint is_substring (k s : string) : bool :=
  if String.prefix k s then true
  else match s with
       | EmptyString => false
       | String _ s' => is_substring k s'
       end.

(** [v == k] for a string [k]. *)
Definition eq_str (k : string) (v : json) : bool :=
  match v with
  | JStr s => String.eqb s k
  | _ => false
  end.

(** [k in data] for a string [k]: key membership in a dict, element
    membership in a list, substring in a string, [TypeError] otherwise. *)
Definition contains (k : string) (data : json) : result bool :=
  match data with
  | JDict d => Ok (match assoc k d with Some _ => true | None => false end)
  | JList l => Ok (existsb (eq_str k) l)
  | JStr s => Ok (is_substring k s)
  | _ => Raise TypeError
  end.

(** [all(field in data for field in fields)], left to right, stopping at the
    first absent field. *)
Fixpoint all_in (fields : list string) (data : json) : result bool :=
  match fields with
  | [] => Ok true
  | f :: fs =>
      b <- contains f data ;;
      if b then all_in fs data else Ok false
  end.

(** [data[k]] for a string [k]. *)
Definition getitem (data : json) (k : string) : result json :=
  match data with
  | JDict d =>
      match assoc k d with
      | Some v => Ok v
      | None => Raise KeyError
      end
  | _ => Raise TypeError
  end.

(** [data.get(k, default)]. *)
Definition get (data : json) (k : string) (default : json) : result json :=
  match data with
  | JDict d =>
      Ok (match assoc k d with
          | Some v => v
          | None => default
          end)
  | _ => Raise AttributeError
  end.

(** ** [int()] *)

Definition is_space (c : ascii) : bool :=
  let n := nat_of_ascii c in
  ((9 <=? n) && (n <=? 13) || (n =? 32))%nat.

Definition digit_of (c : ascii) : option Z :=
  let n := nat_of_ascii c in
  if ((48 <=? n) && (n <=? 57))%nat then Some (Z.of_nat n - 48) else None.

Fixpoint lstrip (s : string) : string :=
  match s with
  | String c s' => if is_space c then lstrip s' else s
  | EmptyString => EmptyString
  end.

Fixpoint all_space (s : string) : bool :=
  match s with
  | EmptyString => true
  | String c s' => is_space c && all_space s'
  end.

(** The digits of a literal after its first digit, [acc] the value read so
    far: digits, each optionally preceded by one underscore, then trailing
    white space only. *)
Fixpoint digits_tail (acc : Z) (s : string) : option Z :=
  match s with
  | EmptyString => Some acc
  | String c s' =>
      match digit_of c with
      | Some d => digits_tail (10 * acc + d) s'
      | None =>
          if Ascii.eqb c "_" then
            match s' with
            | String c' s'' =>
                match digit_of c' with
                | Some d => digits_tail (10 * acc + d) s''
                | None => None
                end
            | EmptyString => None
            end
          else if all_space s then Some acc else None
      end
  end.

Definition digits (s : string) : option Z :=
  match s with
  | String c s' =>
      match digit_of c with
      | Some d => digits_tail d s'
      | None => None
      end
  | EmptyString => None
  end.

(** [int(s)] for a string, base 10: optional white space, an optional sign,
    decimal digits with single underscores between them, optional white
    space.  Only ASCII digits and white space are recognised here, and the
    interpreter's limit on the number of digits is left out; no theorem
    below depends on which strings are literals. *)
Definition int_of_str (s : string) : option Z :=
  match lstrip s with
  | String c s' =>
      if Ascii.eqb c "-" then option_map Z.opp (digits s')
      else if Ascii.eqb c "+" then digits s'
      else digits (String c s')
  | EmptyString => None
  end.

(** [int(f)] for a float: truncation toward zero; NaN and the infinities
    have no integer value. *)
Definition int_of_float (f : spec_float) : result Z :=
  match f with
  | S754_zero _ => Ok 0
  | S754_infinity _ => Raise OverflowError
  | S754_nan => Raise ValueError
  | S754_finite s m e =>
      let mag := if 0 <=? e then Z.pos m * 2 ^ e else Z.pos m / 2 ^ (- e) in
      Ok (if s then - mag else mag)
  end.

(** [int(v)]. *)
Definition py_int (v : json) : result Z :=
  match v with
  | JInt n => Ok n
  | JBool b => Ok (if b then 1 else 0)
  | JFloat f => int_of_float f
  | JStr s =>
      match int_of_str s with
      | Some n => Ok n
      | None => Raise ValueError
      end
  | JNull | JList _ | JDict _ => Raise TypeError
  end.

(** ** Dictionaries keyed by caller-supplied values *)

(** A dict finds a key by hash and [==]: [1], [1.0] and [True] are one key,
    [0.0] and [-0.0] too, and a list or a dict is not hashable.  [key] is the
    class of a hashable JSON value under that equality: a number is
    [m * 2^e] with [m] odd (or [0 * 2^0]). *)
Inductive key : Type :=
| KNone
| KStr (s : string)
| KNum (m e : Z)
| KInf (neg : bool)
| KNaN.

(** [p = r * 2^k] with [r] odd. *)
Fixpoint odd_part (p : positive) : positive * Z :=
  match p with
  | xO q => let '(r, k) := odd_part q in (r, k + 1)
  | _ => (p, 0)
  end.

Definition key_of_Z (n e : Z) : key :=
  match n with
  | Z0 => KNum 0 0
  | Zpos p => let '(r, k) := odd_part p in KNum (Zpos r) (e + k)
  | Zneg p => let '(r, k) := odd_part p in KNum (Zneg r) (e + k)
  end.

(** The key a value is filed under, when it is hashable.  [json.loads]
    returns one and the same NaN object for every NaN it reads, and a dict
    compares keys by identity before [==], so NaN is a key like the others. *)
Definition key_of (v : json) : option key :=
  match v with
  | JNull => Some KNone
  | JBool b => Some (key_of_Z (if b then 1 else 0) 0)
  | JInt n => Some (key_of_Z n 0)
  | JFloat (S754_zero _) => Some (key_of_Z 0 0)
  | JFloat (S754_infinity s) => Some (KInf s)
  | JFloat S754_nan => Some KNaN
  | JFloat (S754_finite s m e) =>
      Some (key_of_Z (if s then Zneg m else Zpos m) e)
  | JStr s => Some (KStr s)
  | JList _ | JDict _ => None
  end.

(** [hash(v)], as a dict operation on [v] computes it first. *)
Definition hash (v : json) : result key :=
  match key_of v with
  | Some k => Ok k
  | None => Raise TypeError
  end.

Definition key_eq_dec (a b : key) : {a = b} + {a <> b}.
Proof.
  decide equality;
    first [ apply Z.eq_dec | apply string_dec | apply bool_dec ].
Defined.

(** A dict in insertion order.  The handlers never read a key back (they use
    [in], [d[k]], [len] and [values()]), so an entry keeps the key's class. *)
Definition pydict (V : Type) : Type := list (key * V).

Fixpoint lookup {V : Type} (k : key) (d : pydict V) : option V :=
  match d with
  | [] => None
  | (k', v) :: d' => if key_eq_dec k' k then Some v else lookup k d'
  end.

(** [d[k] = v]: replaces the value in place, or adds the entry at the end. *)
Fixpoint assign {V : Type} (k : key) (v : V) (d : pydict V) : pydict V :=
  match d with
  | [] => [(k, v)]
  | (k', v') :: d' =>
      if key_eq_dec k' k then (k', v) :: d' else (k', v') :: assign k v d'
  end.

(** [list(d.values())]. *)
Definition values {V : Type} (d : pydict V) : list V := map snd d.

(** [v in d]. *)
Definition dict_contains {V : Type} (v : json) (d : pydict V) : result bool :=
  k <- hash v ;;
  Ok (match lookup k d with Some _ => true | None => false end).

(** [d[v]]. *)
Definition dict_getitem {V : Type} (v : json) (d : pydict V) : result V :=
  k <- hash v ;;
  match lookup k d with
  | Some x => Ok x
  | None => Raise KeyError
  end.

(** [d[v] = x]; also the dict after a write through [d[v]] to the object
    stored there, [x] being that object after the write. *)
Definition dict_setitem {V : Type} (v : json) (x : V) (d : pydict V)
  : result (pydict V) :=
  k <- hash v ;;
  Ok (assign k x d).

(** [len(x)]. *)
Definition len {A : Type} (l : list A) : Z := Z.of_nat (List.length l).

(** ** Records and the store *)

(** The dict stored under [orders[order_id]]. *)
Module Order.
Record t : Type := mk {
  order_id : json;
  customer : json;
  items : json;
  status : string;
  created_at : string
}.
End Order.

(** An element of [tracking_history]; the entry written at creation has no
    ["notes"] key. *)
Module Entry.
Record t : Type := mk {
  location : json;
  status : json;
  timestamp : string;
  notes : option json
}.
End Entry.

(** The dict stored under [shipments[shipment_id]]. *)
Module Shipment.
Record t : Type := mk {
  shipment_id : json;
  origin : json;
  destination : json;
  status : json;
  current_location : json;
  created_at : string;
  estimated_delivery : json;
  tracking_history : list Entry.t
}.
End Shipment.

(** The dict stored under [inventory[item_id]]. *)
Module Item.
Record t : Type := mk {
  item_id : json;
  name : json;
  quantity : Z;
  location : json;
  category : json;
  last_updated : string
}.
End Item.

(** The dict [optimized_route]. *)
Module Route.
Record t : Type := mk {
  start : json;
  waypoints : json;
  end_ : json;
  total_stops : Z;
  estimated_time_minutes : Z;
  optimized : bool;
  route_efficiency : string
}.
End Route.

(** The argument of [jsonify], one constructor per shape the handlers
    build. *)
Inductive body : Type :=
| BError (error : string)
| BMissing (error : string) (required : list string)
| BOrderMsg (message : string) (order : Order.t)
| BOrder (order : Order.t)
| BShipmentMsg (message : string) (shipment : Shipment.t)
| BShipment (shipment : Shipment.t)
| BShipments (count : Z) (shipments : list Shipment.t)
| BInventory (count : Z) (inventory : list Item.t)
| BItemMsg (message : string) (item : Item.t)
| BItem (item : Item.t)
| BRouteMsg (message : string) (route : Route.t).

(** A response: the JSON body and the status code. *)
Definition response : Type := body * Z.

(** The three module-level dictionaries. *)
Record store : Type := mkStore {
  shipments : pydict Shipment.t;
  inventory : pydict Item.t;
  orders : pydict Order.t
}.

Definition empty_store : store := mkStore [] [] [].

Definition set_shipments (st : store) (d : pydict Shipment.t) : store :=
  mkStore d (inventory st) (orders st).

Definition set_inventory (st : store) (d : pydict Item.t) : store :=
  mkStore (shipments st) d (orders st).

Definition set_orders (st : store) (d : pydict Order.t) : store :=
  mkStore (shipments st) (inventory st) d.

(** [not data or not test], [test] being the membership test on [data]
    that is only evaluated when [data] is truthy. *)
Definition lacks (data : json) (test : result bool) : result bool :=
  if truthy data then b <- test ;; Ok (negb b) else Ok true.

(** ** Order management *)

Definition create_order (data : json) (now : string) (st : store)
  : result (store * response) :=
  missing <- lacks data (contains "order_id" data) ;;
  if missing then
    Ok (st, (BError "Invalid order data - order_id is required", 400))
  else
    order_id <- getitem data "order_id" ;;
    present <- dict_contains order_id (orders st) ;;
    if present then Ok (st, (BError "Order already exists", 409))
    else
      customer <- get data "customer" (JStr "Unknown") ;;
      items <- get data "items" (JList []) ;;
      let order := Order.mk order_id customer items "created" now in
      orders' <- dict_setitem order_id order (orders st) ;;
      Ok (set_orders st orders',
          (BOrderMsg "Order created successfully" order, 201)).

Definition get_order (order_id : json) (st : store)
  : result (store * response) :=
  present <- dict_contains order_id (orders st) ;;
  if negb present then Ok (st, (BError "Order not found", 404))
  else
    order <- dict_getitem order_id (orders st) ;;
    Ok (st, (BOrder order, 200)).

(** ** Shipment tracking *)

Definition shipment_required : list string :=
  ["shipment_id"; "origin"; "destination"].

(** [now1] is read for [created_at], [now2] for the first history entry. *)
Definition create_shipment (data : json) (now1 now2 : string) (st : store)
  : result (store * response) :=
  missing <- lacks data (all_in shipment_required data) ;;
  if missing then
    Ok (st, (BMissing "Missing required fields" shipment_required, 400))
  else
    shipment_id <- getitem data "shipment_id" ;;
    present <- dict_contains shipment_id (shipments st) ;;
    if present then Ok (st, (BError "Shipment already exists", 409))
    else
      origin <- getitem data "origin" ;;
      destination <- getitem data "destination" ;;
      estimated_delivery <- get data "estimated_delivery" JNull ;;
      let shipment :=
        Shipment.mk shipment_id origin destination (JStr "pending") origin
          now1 estimated_delivery
          [Entry.mk origin (JStr "pending") now2 None] in
      shipments' <- dict_setitem shipment_id shipment (shipments st) ;;
      Ok (set_shipments st shipments',
          (BShipmentMsg "Shipment created successfully" shipment, 201)).

Definition get_shipment (shipment_id : json) (st : store)
  : result (store * response) :=
  present <- dict_contains shipment_id (shipments st) ;;
  if negb present then Ok (st, (BError "Shipment not found", 404))
  else
    shipment <- dict_getitem shipment_id (shipments st) ;;
    Ok (st, (BShipment shipment, 200)).

(** The three writes go through [shipment], the dict stored under
    [shipments[shipment_id]]; [data["location"]] is evaluated before the
    first of them. *)
Definition update_shipment_location (shipment_id : json) (data : json)
  (now : string) (st : store) : result (store * response) :=
  present <- dict_contains shipment_id (shipments st) ;;
  if negb present then Ok (st, (BError "Shipment not found", 404))
  else
    missing <- lacks data (contains "location" data) ;;
    if missing then Ok (st, (BError "Location is required", 400))
    else
      shipment <- dict_getitem shipment_id (shipments st) ;;
      location <- getitem data "location" ;;
      status <- get data "status" (JStr "in_transit") ;;
      notes <- get data "notes" (JStr "") ;;
      let shipment' :=
        Shipment.mk
          (Shipment.shipment_id shipment)
          (Shipment.origin shipment)
          (Shipment.destination shipment)
          status
          location
          (Shipment.created_at shipment)
          (Shipment.estimated_delivery shipment)
          (Shipment.tracking_history shipment
             ++ [Entry.mk location status now (Some notes)]) in
      shipments' <- dict_setitem shipment_id shipment' (shipments st) ;;
      Ok (set_shipments st shipments',
          (BShipmentMsg "Location updated successfully" shipment', 200)).

(** [if status_filter:] for the value of [request.args.get('status')]:
    [None] and the empty string are falsy. *)
Definition filter_given (status_filter : option string) : bool :=
  match status_filter with
  | Some f => negb (String.eqb f "")
  | None => false
  end.

(** [s['status'] == status_filter]. *)
Definition status_is (status_filter : option string) (s : Shipment.t) : bool :=
  match status_filter with
  | Some f => eq_str f (Shipment.status s)
  | None => false
  end.

Definition list_shipments (status_filter : option string) (st : store)
  : result (store * response) :=
  let filtered_shipments :=
    if filter_given status_filter then
      filter (status_is status_filter) (values (shipments st))
    else values (shipments st) in
  Ok (st, (BShipments (len filtered_shipments) filtered_shipments, 200)).

(** ** Inventory management *)

Definition get_inventory (st : store) : result (store * response) :=
  Ok (st, (BInventory (len (inventory st)) (values (inventory st)), 200)).

Definition inventory_required : list string :=
  ["item_id"; "name"; "quantity"].

(** The [try] block [add_inventory_item] and [update_stock] share:
<<
    try:
        quantity = int(data["quantity"])
        if quantity < 0:
            return jsonify({"error": "Quantity must be non-negative"}), 400
    except (ValueError, TypeError):
        return jsonify({"error": "Quantity must be a valid integer"}), 400
>>
    It yields the quantity ([inl]), or the response it returns ([inr]), or
    lets through the exception its [except] clause does not name. *)
Definition parse_quantity (data : json) : result (Z + response) :=
  match (v <- getitem data "quantity" ;; py_int v) with
  | Ok quantity =>
      if quantity <? 0 then
        Ok (inr (BError "Quantity must be non-negative", 400))
      else Ok (inl quantity)
  | Raise ValueError | Raise TypeError =>
      Ok (inr (BError "Quantity must be a valid integer", 400))
  | Raise e => Raise e
  end.

Definition add_inventory_item (data : json) (now : string) (st : store)
  : result (store * response) :=
  missing <- lacks data (all_in inventory_required data) ;;
  if missing then
    Ok (st, (BMissing "Missing required fields" inventory_required, 400))
  else
    item_id <- getitem data "item_id" ;;
    present <- dict_contains item_id (inventory st) ;;
    if present then Ok (st, (BError "Item already exists", 409))
    else
      parsed <- parse_quantity data ;;
      match parsed with
      | inr early => Ok (st, early)
      | inl quantity =>
          name <- getitem data "name" ;;
          location <- get data "location" (JStr "Warehouse") ;;
          category <- get data "category" (JStr "General") ;;
          let item := Item.mk item_id name quantity location category now in
          inventory' <- dict_setitem item_id item (inventory st) ;;
          Ok (set_inventory st inventory',
              (BItemMsg "Inventory item added successfully" item, 201))
      end.

Definition get_inventory_item (item_id : json) (st : store)
  : result (store * response) :=
  present <- dict_contains item_id (inventory st) ;;
  if negb present then Ok (st, (BError "Item not found", 404))
  else
    item <- dict_getitem item_id (inventory st) ;;
    Ok (st, (BItem item, 200)).

(** The two writes go through [inventory[item_id]], the dict stored
    there. *)
Definition update_stock (item_id : json) (data : json) (now : string)
  (st : store) : result (store * response) :=
  present <- dict_contains item_id (inventory st) ;;
  if negb present then Ok (st, (BError "Item not found", 404))
  else
    missing <- lacks data (contains "quantity" data) ;;
    if missing then Ok (st, (BError "Quantity is required", 400))
    else
      parsed <- parse_quantity data ;;
      match parsed with
      | inr early => Ok (st, early)
      | inl quantity =>
          item <- dict_getitem item_id (inventory st) ;;
          let item' :=
            Item.mk (Item.item_id item) (Item.name item) quantity
              (Item.location item) (Item.category item) now in
          inventory' <- dict_setitem item_id item' (inventory st) ;;
          Ok (set_inventory st inventory',
              (BItemMsg "Stock updated successfully" item', 200))
      end.

(** ** Route optimization *)

Definition route_required : list string := ["start"; "waypoints"; "end"].

(** The handler names none of the three dictionaries: it is a function of
    the request body alone. *)
Definition optimize_route (data : json) : result response :=
  missing <- lacks data (all_in route_required data) ;;
  if missing then
    Ok (BMissing "Missing required fields" route_required, 400)
  else
    waypoints <- getitem data "waypoints" ;;
    match waypoints with
    | JList l =>
        let total_stops := len l + 1 in
        let estimated_time := total_stops * 30 in
        start <- getitem data "start" ;;
        end_ <- getitem data "end" ;;
        Ok (BRouteMsg "Route optimized successfully"
              (Route.mk start waypoints end_ total_stops estimated_time
                 true "optimal"),
            200)
    | _ => Ok (BError "Waypoints must be a list", 400)
    end.

(** ** The application *)

(** A request to one of the routes over the store or to the optimizer.  A
    path parameter reaches its handler as a string; the timestamps are the
    clock readings the handler makes when it gets that far. *)
Inductive request : Type :=
| PostOrder (data : json) (now : string)
| GetOrder (order_id : string)
| PostShipment (data : json) (now1 now2 : string)
| GetShipment (shipment_id : string)
| PutShipmentLocation (shipment_id : string) (data : json) (now : string)
| GetShipments (status : option string)
| GetInventory
| PostInventory (data : json) (now : string)
| GetInventoryItem (item_id : string)
| PutInventoryStock (item_id : string) (data : json) (now : string)
| PostRouteOptimize (data : json).

Definition dispatch (r : request) (st : store) : result (store * response) :=
  match r with
  | PostOrder data now => create_order data now st
  | GetOrder order_id => get_order (JStr order_id) st
  | PostShipment data now1 now2 => create_shipment data now1 now2 st
  | GetShipment shipment_id => get_shipment (JStr shipment_id) st
  | PutShipmentLocation shipment_id data now =>
      update_shipment_location (JStr shipment_id) data now st
  | GetShipments status => list_shipments status st
  | GetInventory => get_inventory st
  | PostInventory data now => add_inventory_item data now st
  | GetInventoryItem item_id => get_inventory_item (JStr item_id) st
  | PutInventoryStock item_id data now =>
      update_stock (JStr item_id) data now st
  | PostRouteOptimize data =>
      resp <- optimize_route data ;; Ok (st, resp)
  end.

(** [internal_error], the handler registered for status 500. *)
Definition internal_error : response := (BError "Internal server error", 500).

(** One request served: every handler does its checks before its first
    write, so an exception leaves the store as it was. *)
Definition handle (st : store) (r : request) : store * response :=
  match dispatch r st with
  | Ok out => out
  | Raise _ => (st, internal_error)
  end.

(** The store after a sequence of requests, and the responses given. *)
Fixpoint run (st : store) (rs : list request) : store * list response :=
  match rs with
  | [] => (st, [])
  | r :: rs' =>
      let '(st1, resp) := handle st r in
      let '(st2, resps) := run st1 rs' in
      (st2, resp :: resps)
  end.

(** ** The specification's notions and examples

    What follows is not code of the service: the invariant, the records the
    specification describes, and the concrete requests of its examples and
    of the test suite, for the properties below to be stated with. *)

(** The invariant on [inventory]. *)
Definition quantities_nonneg (st : store) : Prop :=
  Forall (fun item => 0 <= Item.quantity item) (values (inventory st)).

(** The specification's inventory example: [POST /inventory] of a widget,
    quantity 100. *)
Definition widget : json :=
  JDict [("item_id", JStr "ITM-001"); ("name", JStr "Widget");
         ("quantity", JInt 100)].

(** The store after that request. *)
Definition widget_store : store :=
  fst (handle empty_store (PostInventory widget "2026-01-01T00:00:00")).

(** 3.7 as the binary64 float [json.loads] reads it as:
    [8331659310635418 * 2^-51]. *)
Definition float_3_7 : spec_float := S754_finite false 8331659310635418 (-51).

(** -0.5. *)
Definition float_minus_half : spec_float := S754_finite true 1 (-1).

(** The float [json.loads] reads a number beyond the binary64 range as,
    [1e999] say, and the literal [Infinity]. *)
Definition float_inf : spec_float := S754_infinity false.

(** The order of the test suite's fixture. *)
Definition sample_order : json :=
  JDict [("order_id", JStr "ORD-001"); ("customer", JStr "John Doe");
         ("items", JList [JStr "item1"; JStr "item2"])].

(** The shipment of the specification's end-to-end example. *)
Definition sample_shipment : json :=
  JDict [("shipment_id", JStr "SHP-001"); ("origin", JStr "NY");
         ("destination", JStr "LA")].

(** The specification's [body.status] if provided, else "in_transit". *)
Definition status_of (d : list (string * json)) : json :=
  match assoc "status" d with
  | Some s => s
  | None => JStr "in_transit"
  end.

(** The specification's [body.notes], or the empty string. *)
Definition notes_of (d : list (string * json)) : json :=
  match assoc "notes" d with
  | Some n => n
  | None => JStr ""
  end.

(** The record the specification describes after a location update of
    [shipment]: [status] and [current_location] overwritten, one entry
    appended to [tracking_history], the other five fields kept. *)
Definition moved (shipment : Shipment.t) (d : list (string * json))
  (location : json) (now : string) : Shipment.t :=
  Shipment.mk
    (Shipment.shipment_id shipment)
    (Shipment.origin shipment)
    (Shipment.destination shipment)
    (status_of d)
    location
    (Shipment.created_at shipment)
    (Shipment.estimated_delivery shipment)
    (Shipment.tracking_history shipment
       ++ [Entry.mk location (status_of d) now (Some (notes_of d))]).

(** The state after the specification's [POST /shipment] example. *)
Definition shipped_store : store :=
  fst (handle empty_store
         (PostShipment sample_shipment "2026-01-01T00:00:00"
            "2026-01-01T00:00:01")).

(** The record that request stores. *)
Definition shipped : Shipment.t :=
  Shipment.mk (JStr "SHP-001") (JStr "NY") (JStr "LA") (JStr "pending")
    (JStr "NY") "2026-01-01T00:00:00" JNull
    [Entry.mk (JStr "NY") (JStr "pending") "2026-01-01T00:00:01" None].

(** [update_shipment_location] called once per element of [updates] (a body
    and the time of the call), in order, on one shipment id: the final store
    and the status codes answered. *)
Fixpoint update_locations (shipment_id : json)
  (updates : list (list (string * json) * string)) (st : store)
  : result (store * list Z) :=
  match updates with
  | [] => Ok (st, [])
  | (d, now) :: rest =>
      '(st1, (_, code)) <-
        update_shipment_location shipment_id (JDict d) now st ;;
      '(st2, codes) <- update_locations shipment_id rest st1 ;;
      Ok (st2, code :: codes)
  end.

(** A body with a [location]. *)
Definition has_location (u : list (string * json) * string) : Prop :=
  assoc "location" (fst u) <> None.

(** The history entry the call [u] is to leave. *)
Definition entry_of (u : list (string * json) * string) : Entry.t :=
  Entry.mk
    (match assoc "location" (fst u) with Some l => l | None => JNull end)
    (status_of (fst u)) (snd u) (Some (notes_of (fst u))).

(** ** Configuration ([app/config.py]) *)

(** [os.environ] once [load_dotenv()] has run: a variable is unset or has a
    string value. *)
Definition environ : Type := string -> option string.

(** [os.getenv(name, default)]. *)
Definition getenv (e : environ) (name default : string) : string :=
  match e name with
  | Some v => v
  | None => default
  end.

(** The three classes below [Config]. *)
Inductive config_class : Type :=
| DevelopmentConfig
| TestingConfig
| ProductionConfig.

(** The class attributes [DEBUG], [TESTING] and [ENV]. *)
Definition DEBUG (c : config_class) : bool :=
  match c with
  | DevelopmentConfig => true
  | TestingConfig => false
  | ProductionConfig => false
  end.

Definition TESTING (c : config_class) : bool :=
  match c with
  | DevelopmentConfig => false
  | TestingConfig => true
  | ProductionConfig => false
  end.

Definition ENV (c : config_class) : string :=
  match c with
  | DevelopmentConfig => "development"
  | TestingConfig => "testing"
  | ProductionConfig => "production"
  end.

(** The body of [class ProductionConfig], run when the module is imported:
<<
    SECRET_KEY = os.getenv('SECRET_KEY')
    if not SECRET_KEY:
        raise ValueError(...)
>> *)
Definition production_secret_key (e : environ) : result string :=
  match e "SECRET_KEY" with
  | Some k => if String.eqb k "" then Raise ValueError else Ok k
  | None => Raise ValueError
  end.

(** The dict [config]. *)
Definition config : list (string * config_class) :=
  [("development", DevelopmentConfig); ("testing", TestingConfig);
   ("production", ProductionConfig); ("default", DevelopmentConfig)].

(** [config.get(env, default)]. *)
Fixpoint config_get (env : string) (d : list (string * config_class))
  (default : config_class) : config_class :=
  match d with
  | [] => default
  | (k, c) :: d' => if String.eqb k env then c else config_get env d' default
  end.

(** [get_config(env)], once the module is there. *)
Definition get_config (e : environ) (env : option string) : config_class :=
  let env :=
    match env with
    | None => getenv e "FLASK_ENV" "development"
    | Some name => name
    end in
  config_get env config DevelopmentConfig.

(** [from config import get_config] followed by [get_config(env)]: the
    import runs the class bodies first. *)
Definition import_get_config (e : environ) (env : option string)
  : result config_class :=
  _ <- production_secret_key e ;;
  Ok (get_config e env).

(** ** Further notions the properties are stated with *)

(** The requests of the [GET] routes. *)
Definition is_get (r : request) : bool :=
  match r with
  | GetOrder _ | GetShipment _ | GetShipments _ | GetInventory
  | GetInventoryItem _ => true
  | _ => false
  end.

(** The status code of the response to [r] in [st]. *)
Definition status_code (st : store) (r : request) : Z :=
  snd (snd (handle st r)).

(** A body that is a number or a boolean, and truthy: [true] or a number
    other than zero. *)
Definition truthy_scalar (data : json) : bool :=
  match data with
  | JBool _ | JInt _ | JFloat _ => truthy data
  | _ => false
  end.

(** A body that is a JSON array or string. *)
Definition is_sequence (data : json) : bool :=
  match data with
  | JList _ | JStr _ => true
  | _ => false
  end.

(** [s'] is [s] after some location updates: the five fixed fields are the
    same and the history of [s] is the beginning of that of [s']. *)
Definition extends (s s' : Shipment.t) : Prop :=
  Shipment.shipment_id s' = Shipment.shipment_id s
  /\ Shipment.origin s' = Shipment.origin s
  /\ Shipment.destination s' = Shipment.destination s
  /\ Shipment.created_at s' = Shipment.created_at s
  /\ Shipment.estimated_delivery s' = Shipment.estimated_delivery s
  /\ exists more,
       Shipment.tracking_history s'
       = (Shipment.tracking_history s ++ more)%list.

(** [it'] is [it] after some stock updates: only [quantity] and
    [last_updated] may differ. *)
Definition same_identity (it it' : Item.t) : Prop :=
  Item.item_id it' = Item.item_id it
  /\ Item.name it' = Item.name it
  /\ Item.location it' = Item.location it
  /\ Item.category it' = Item.category it.

(** The shape of a stored shipment: the history starts with the entry of
    the creation (the origin, "pending", no notes), every later entry has
    notes, and the last entry carries the current location and status. *)
Definition shipment_wf (s : Shipment.t) : Prop :=
  exists first rest,
    Shipment.tracking_history s = first :: rest
    /\ Entry.location first = Shipment.origin s
    /\ Entry.status first = JStr "pending"
    /\ Entry.notes first = None
    /\ Forall (fun e => Entry.notes e <> None) rest
    /\ Entry.location (last rest first) = Shipment.current_location s
    /\ Entry.status (last rest first) = Shipment.status s.

(** The requests that create a record, by dictionary. *)
Definition is_post_order (r : request) : bool :=
  match r with PostOrder _ _ => true | _ => false end.

Definition is_post_shipment (r : request) : bool :=
  match r with PostShipment _ _ _ => true | _ => false end.

Definition is_post_inventory (r : request) : bool :=
  match r with PostInventory _ _ => true | _ => false end.

(** How many of the requests [rs] of one kind were answered 201, [resps]
    being the responses in the same order. *)
Definition count_201 (kind : request -> bool) (rs : list request)
  (resps : list response) : Z :=
  len (filter (fun p => kind (fst p) && (snd (snd p) =? 201))
         (combine rs resps)).

(** Every record of a dictionary is stored under the key of its own id. *)
Definition keyed_by {V : Type} (id : V -> json) (d : pydict V) : Prop :=
  Forall (fun p => key_of (id (snd p)) = Some (fst p)) d.

(** The store invariant: each dictionary keeps its records under their own
    ids, and every order has the status "created". *)
Definition store_keyed (st : store) : Prop :=
  keyed_by Order.order_id (orders st)
  /\ keyed_by Shipment.shipment_id (shipments st)
  /\ keyed_by Item.item_id (inventory st)
  /\ Forall (fun o => Order.status o = "created") (values (orders st)).

(** The keys of the three dictionaries after [st'] continue those of
    [st]. *)
Definition keys_continue (st st' : store) : Prop :=
  (exists more,
      map fst (orders st') = (map fst (orders st) ++ more)%list)
  /\ (exists more,
         map fst (shipments st') = (map fst (shipments st) ++ more)%list)
  /\ (exists more,
         map fst (inventory st') = (map fst (inventory st) ++ more)%list).

(** One for a request of the kind answered 201, zero otherwise. *)
Definition one_if_created (kind : request -> bool) (r : request) (code : Z)
  : Z :=
  if kind r && (code =? 201) then 1 else 0.

(** The JSON body of a request, for the routes that read one. *)
Definition body_of (r : request) : option json :=
  match r with
  | PostOrder data _ | PostShipment data _ _
  | PutShipmentLocation _ data _ | PostInventory data _
  | PutInventoryStock _ data _ | PostRouteOptimize data => Some data
  | _ => None
  end.

(** A JSON object. *)
Definition is_object (data : json) : bool :=
  match data with
  | JDict _ => true
  | _ => false
  end.

(** What serving one request does to the store, with the status code
    answered: nothing, or one of five writes.  [handle_effect] below shows
    that [handle] does nothing else. *)
Inductive effect (st : store) : request -> store -> Z -> Prop :=
| effect_none (r : request) (code : Z) :
    code <> 201 -> (is_get r = true -> code = 200 \/ code = 404) ->
    effect st r st code
| effect_order data now k order_id customer items :
    lookup k (orders st) = None ->
    key_of order_id = Some k ->
    effect st (PostOrder data now)
      (set_orders st
         (assign k (Order.mk order_id customer items "created" now)
            (orders st)))
      201
| effect_shipment data now1 now2 k shipment_id origin destination estimated :
    lookup k (shipments st) = None ->
    key_of shipment_id = Some k ->
    effect st (PostShipment data now1 now2)
      (set_shipments st
         (assign k
            (Shipment.mk shipment_id origin destination (JStr "pending")
               origin now1 estimated
               [Entry.mk origin (JStr "pending") now2 None])
            (shipments st)))
      201
| effect_move sid d now shipment location :
    lookup (KStr sid) (shipments st) = Some shipment ->
    assoc "location" d = Some location ->
    effect st (PutShipmentLocation sid (JDict d) now)
      (set_shipments st
         (assign (KStr sid) (moved shipment d location now) (shipments st)))
      200
| effect_item data now k item_id name quantity location category :
    lookup k (inventory st) = None ->
    key_of item_id = Some k ->
    0 <= quantity ->
    effect st (PostInventory data now)
      (set_inventory st
         (assign k (Item.mk item_id name quantity location category now)
            (inventory st)))
      201
| effect_stock iid data now item quantity :
    lookup (KStr iid) (inventory st) = Some item ->
    0 <= quantity ->
    effect st (PutInventoryStock iid data now)
      (set_inventory st
         (assign (KStr iid)
            (Item.mk (Item.item_id item) (Item.name item) quantity
               (Item.location item) (Item.category item) now)
            (inventory st)))
      200.

(** * Properties *)

(** ** The error monad, request bodies and the dictionaries *)

Lemma bind_Ok {A B : Type} (r : result A) (k : A -> result B) (b : B) :
  bind r k = Ok b -> exists a, r = Ok a /\ k a = Ok b.
Proof.
  destruct r as [a | e]; simpl; intros H; [ eauto | discriminate ].
Qed.

(** Splits a hypothesis [bind r k = Ok b] into the two evaluations. *)
Tactic Notation "unbind" hyp(H) "as" ident(a) ident(Ha) :=
  apply bind_Ok in H; destruct H as (a & Ha & H).

(** A body from which [data[k]] can be read is a non-empty JSON object
    that has the key. *)
Lemma getitem_Ok (data : json) (k : string) (v : json) :
  getitem data k = Ok v ->
  exists d, data = JDict d /\ assoc k d = Some v.
Proof.
  destruct data; simpl; try discriminate.
  destruct (assoc k d) eqn:E; [ | discriminate ].
  intros H. injection H as <-. eauto.
Qed.

Lemma assoc_truthy (k : string) (d : list (string * json)) (v : json) :
  assoc k d = Some v -> truthy (JDict d) = true.
Proof.
  destruct d; simpl; [ discriminate | reflexivity ].
Qed.

Lemma getitem_truthy (data : json) (k : string) (v : json) :
  getitem data k = Ok v -> truthy data = true.
Proof.
  intros H. apply getitem_Ok in H. destruct H as (d & -> & H).
  eapply assoc_truthy; eassumption.
Qed.

Lemma getitem_contains (data : json) (k : string) (v : json) :
  getitem data k = Ok v -> contains k data = Ok true.
Proof.
  intros H. apply getitem_Ok in H. destruct H as (d & -> & H).
  simpl. rewrite H. reflexivity.
Qed.

Lemma getitem_get (data : json) (k k' : string) (v dflt : json) :
  getitem data k = Ok v ->
  exists x, get data k' dflt = Ok x.
Proof.
  intros H. apply getitem_Ok in H. destruct H as (d & -> & _).
  simpl. eauto.
Qed.

Lemma getitem_lacks (data : json) (k : string) (v : json) :
  getitem data k = Ok v -> lacks data (contains k data) = Ok false.
Proof.
  intros H. unfold lacks.
  rewrite (getitem_truthy _ _ _ H), (getitem_contains _ _ _ H). reflexivity.
Qed.

Lemma lookup_assign_same {V : Type} (k : key) (v : V) (d : pydict V) :
  lookup k (assign k v d) = Some v.
Proof.
  induction d as [| [k' v'] d IH]; simpl.
  - destruct (key_eq_dec k k); congruence.
  - destruct (key_eq_dec k' k) as [e | n]; simpl.
    + destruct (key_eq_dec k' k); congruence.
    + destruct (key_eq_dec k' k); congruence.
Qed.

Lemma lookup_assign_other {V : Type} (k k' : key) (v : V) (d : pydict V) :
  k <> k' -> lookup k' (assign k v d) = lookup k' d.
Proof.
  intros Hne. induction d as [| [k0 v0] d IH]; simpl.
  - destruct (key_eq_dec k k'); congruence.
  - destruct (key_eq_dec k0 k) as [e | n]; simpl.
    + destruct (key_eq_dec k0 k'); congruence.
    + destruct (key_eq_dec k0 k'); congruence.
Qed.

Lemma Forall_values_assign {V : Type} (P : V -> Prop) (k : key) (v : V)
  (d : pydict V) :
  Forall P (values d) -> P v -> Forall P (values (assign k v d)).
Proof.
  unfold values. induction d as [| [k' v'] d IH]; simpl; intros Hd Hv.
  - constructor; [ exact Hv | constructor ].
  - inversion Hd; subst. destruct (key_eq_dec k' k); simpl.
    + constructor; assumption.
    + constructor; [ assumption | apply IH; assumption ].
Qed.

Lemma hash_Ok (v : json) (k : key) : hash v = Ok k -> key_of v = Some k.
Proof.
  unfold hash. destruct (key_of v); intros H; [ | discriminate ].
  injection H as <-. reflexivity.
Qed.

Lemma dict_contains_Ok {V : Type} (v : json) (d : pydict V) (b : bool) :
  dict_contains v d = Ok b ->
  exists k, hash v = Ok k /\
            b = match lookup k d with Some _ => true | None => false end.
Proof.
  unfold dict_contains. intros H. unbind H as k Hk.
  injection H as <-. eauto.
Qed.

Lemma dict_setitem_Ok {V : Type} (v : json) (x : V) (d d' : pydict V) :
  dict_setitem v x d = Ok d' ->
  exists k, hash v = Ok k /\ d' = assign k x d.
Proof.
  unfold dict_setitem. intros H. unbind H as k Hk.
  injection H as <-. eauto.
Qed.

(** Once [v in d] has answered, [v] is hashable and the other operations on
    [d] at [v] do not raise [TypeError]. *)
Lemma dict_contains_true {V : Type} (v : json) (d : pydict V) :
  dict_contains v d = Ok true ->
  exists k x, hash v = Ok k /\ lookup k d = Some x /\ dict_getitem v d = Ok x.
Proof.
  intros H. apply dict_contains_Ok in H. destruct H as (k & Hk & Hb).
  unfold dict_getitem. rewrite Hk. simpl.
  destruct (lookup k d) as [x |] eqn:Hx; [ | discriminate ].
  exists k, x. repeat split; first [ reflexivity | assumption ].
Qed.

Lemma dict_contains_false {V : Type} (v : json) (d : pydict V) :
  dict_contains v d = Ok false ->
  exists k, hash v = Ok k /\ lookup k d = None.
Proof.
  intros H. apply dict_contains_Ok in H. destruct H as (k & Hk & Hb).
  destruct (lookup k d) eqn:Hx; [ discriminate | eauto ].
Qed.

Lemma dict_getitem_setitem {V : Type} (v : json) (x : V) (d d' : pydict V) :
  dict_setitem v x d = Ok d' ->
  dict_contains v d' = Ok true /\ dict_getitem v d' = Ok x.
Proof.
  intros H. apply dict_setitem_Ok in H. destruct H as (k & Hk & ->).
  unfold dict_contains, dict_getitem. rewrite Hk. simpl.
  rewrite lookup_assign_same. split; reflexivity.
Qed.

(** ** C1: stored quantities are never negative *)

(** What [parse_quantity] hands back as a quantity passed the [< 0] test. *)
Lemma parse_quantity_nonneg (data : json) (q : Z) :
  parse_quantity data = Ok (inl q) -> 0 <= q.
Proof.
  unfold parse_quantity.
  destruct (bind (getitem data "quantity") _) as [n | e].
  - destruct (n <? 0) eqn:Hn; intros H.
    + discriminate.
    + injection H as <-. apply Z.ltb_ge. exact Hn.
  - destruct e; discriminate.
Qed.

Lemma add_inventory_item_nonneg data now st st' resp :
  quantities_nonneg st ->
  add_inventory_item data now st = Ok (st', resp) ->
  quantities_nonneg st'.
Proof.
  unfold add_inventory_item. intros Hinv H.
  unbind H as missing Hm. destruct missing; [ congruence | ].
  unbind H as item_id Hid. unbind H as present Hp.
  destruct present; [ congruence | ].
  unbind H as parsed Hq. destruct parsed as [q | early]; [ | congruence ].
  unbind H as name Hn. unbind H as location Hl. unbind H as category Hc.
  unbind H as inventory' Hs. injection H as <- _.
  apply dict_setitem_Ok in Hs. destruct Hs as (k & _ & ->).
  apply Forall_values_assign; [ exact Hinv | simpl ].
  eapply parse_quantity_nonneg; eassumption.
Qed.

Lemma update_stock_nonneg item_id data now st st' resp :
  quantities_nonneg st ->
  update_stock item_id data now st = Ok (st', resp) ->
  quantities_nonneg st'.
Proof.
  unfold update_stock. intros Hinv H.
  unbind H as present Hp. destruct present; simpl in H; [ | congruence ].
  unbind H as missing Hm. destruct missing; [ congruence | ].
  unbind H as parsed Hq. destruct parsed as [q | early]; [ | congruence ].
  unbind H as item Hi. unbind H as inventory' Hs. injection H as <- _.
  apply dict_setitem_Ok in Hs. destruct Hs as (k & _ & ->).
  apply Forall_values_assign; [ exact Hinv | simpl ].
  eapply parse_quantity_nonneg; eassumption.
Qed.

(** A handler that does not assign to [inventory] leaves it as it was. *)
Lemma create_order_inventory data now st st' resp :
  create_order data now st = Ok (st', resp) -> inventory st' = inventory st.
Proof.
  unfold create_order. intros H.
  unbind H as missing Hm. destruct missing; [ congruence | ].
  unbind H as order_id Hid. unbind H as present Hp.
  destruct present; [ congruence | ].
  unbind H as customer Hc. unbind H as items Hi. unbind H as orders' Hs.
  injection H as <- _. reflexivity.
Qed.

Lemma create_shipment_inventory data now1 now2 st st' resp :
  create_shipment data now1 now2 st = Ok (st', resp) ->
  inventory st' = inventory st.
Proof.
  unfold create_shipment. intros H.
  unbind H as missing Hm. destruct missing; [ congruence | ].
  unbind H as shipment_id Hid. unbind H as present Hp.
  destruct present; [ congruence | ].
  unbind H as origin Ho. unbind H as destination Hd.
  unbind H as estimated He. unbind H as shipments' Hs.
  injection H as <- _. reflexivity.
Qed.

Lemma update_shipment_location_inventory sid data now st st' resp :
  update_shipment_location sid data now st = Ok (st', resp) ->
  inventory st' = inventory st.
Proof.
  unfold update_shipment_location. intros H.
  unbind H as present Hp. destruct present; simpl in H; [ | congruence ].
  unbind H as missing Hm. destruct missing; [ congruence | ].
  unbind H as shipment Hsh. unbind H as location Hl.
  unbind H as status Hst. unbind H as notes Hn. unbind H as shipments' Hs.
  injection H as <- _. reflexivity.
Qed.

(** The handlers that only read. *)
Lemma get_order_store oid st st' resp :
  get_order oid st = Ok (st', resp) -> st' = st.
Proof.
  unfold get_order. intros H. unbind H as present Hp.
  destruct present; simpl in H; [ unbind H as order Ho | ]; congruence.
Qed.

Lemma get_shipment_store sid st st' resp :
  get_shipment sid st = Ok (st', resp) -> st' = st.
Proof.
  unfold get_shipment. intros H. unbind H as present Hp.
  destruct present; simpl in H; [ unbind H as shipment Ho | ]; congruence.
Qed.

Lemma get_inventory_item_store iid st st' resp :
  get_inventory_item iid st = Ok (st', resp) -> st' = st.
Proof.
  unfold get_inventory_item. intros H. unbind H as present Hp.
  destruct present; simpl in H; [ unbind H as item Ho | ]; congruence.
Qed.

Lemma handle_nonneg (st : store) (r : request) :
  quantities_nonneg st -> quantities_nonneg (fst (handle st r)).
Proof.
  intros Hinv. unfold handle.
  destruct (dispatch r st) as [[st' resp] | e] eqn:H; simpl; [ | exact Hinv ].
  destruct r; cbn [dispatch] in H.
  - unfold quantities_nonneg.
    rewrite (create_order_inventory _ _ _ _ _ H). exact Hinv.
  - rewrite (get_order_store _ _ _ _ H). exact Hinv.
  - unfold quantities_nonneg.
    rewrite (create_shipment_inventory _ _ _ _ _ _ H). exact Hinv.
  - rewrite (get_shipment_store _ _ _ _ H). exact Hinv.
  - unfold quantities_nonneg.
    rewrite (update_shipment_location_inventory _ _ _ _ _ _ H). exact Hinv.
  - unfold list_shipments in H. congruence.
  - unfold get_inventory in H. congruence.
  - eapply add_inventory_item_nonneg; eassumption.
  - rewrite (get_inventory_item_store _ _ _ _ H). exact Hinv.
  - eapply update_stock_nonneg; eassumption.
  - unbind H as resp' Hr. congruence.
Qed.

Lemma run_cons (st : store) (r : request) (rs : list request) :
  fst (run st (r :: rs)) = fst (run (fst (handle st r)) rs).
Proof.
  simpl. destruct (handle st r) as [st1 resp]. simpl.
  destruct (run st1 rs). reflexivity.
Qed.

Lemma run_nonneg (rs : list request) (st : store) :
  quantities_nonneg st -> quantities_nonneg (fst (run st rs)).
Proof.
  revert st. induction rs as [| r rs IH]; intros st Hinv.
  - exact Hinv.
  - rewrite run_cons. apply IH. apply handle_nonneg. exact Hinv.
Qed.

(** The three outcomes of the shared [try] block, by what [int()] does. *)
Lemma parse_quantity_negative (data v : json) (n : Z) :
  getitem data "quantity" = Ok v -> py_int v = Ok n -> n < 0 ->
  parse_quantity data = Ok (inr (BError "Quantity must be non-negative", 400)).
Proof.
  intros Hv Hn Hneg. unfold parse_quantity. rewrite Hv. simpl. rewrite Hn.
  apply Z.ltb_lt in Hneg. rewrite Hneg. reflexivity.
Qed.

Lemma parse_quantity_accepted (data v : json) (n : Z) :
  getitem data "quantity" = Ok v -> py_int v = Ok n -> 0 <= n ->
  parse_quantity data = Ok (inl n).
Proof.
  intros Hv Hn Hpos. unfold parse_quantity. rewrite Hv. simpl. rewrite Hn.
  apply Z.ltb_ge in Hpos. rewrite Hpos. reflexivity.
Qed.

Lemma parse_quantity_invalid (data v : json) (e : exn) :
  getitem data "quantity" = Ok v -> py_int v = Raise e ->
  e = ValueError \/ e = TypeError ->
  parse_quantity data
  = Ok (inr (BError "Quantity must be a valid integer", 400)).
Proof.
  intros Hv He [-> | ->]; unfold parse_quantity; rewrite Hv; simpl;
    rewrite He; reflexivity.
Qed.

(** [int()] raises nothing but the three exceptions below, and
    [OverflowError] only for an infinite float. *)
Lemma py_int_raises (v : json) (e : exn) :
  py_int v = Raise e ->
  (e = ValueError \/ e = TypeError)
  \/ (e = OverflowError /\ exists s, v = JFloat (S754_infinity s)).
Proof.
  destruct v as [| b | n | f | s | l | d]; simpl; try discriminate.
  - intros H. injection H as <-. auto.
  - destruct f as [s | s | | s m x]; simpl; try discriminate.
    + intros H. injection H as <-. right. eauto.
    + intros H. injection H as <-. auto.
  - destruct (int_of_str s); [ discriminate | ].
    intros H. injection H as <-. auto.
  - intros H. injection H as <-. auto.
  - intros H. injection H as <-. auto.
Qed.

(** [update_stock] on a stored item, with a body that has a quantity, is
    decided by the [try] block. *)
Lemma update_stock_parse item_id data now st item v :
  dict_getitem item_id (inventory st) = Ok item ->
  getitem data "quantity" = Ok v ->
  update_stock item_id data now st
  = parsed <- parse_quantity data ;;
    match parsed with
    | inr early => Ok (st, early)
    | inl quantity =>
        let item' :=
          Item.mk (Item.item_id item) (Item.name item) quantity
            (Item.location item) (Item.category item) now in
        inventory' <- dict_setitem item_id item' (inventory st) ;;
        Ok (set_inventory st inventory',
            (BItemMsg "Stock updated successfully" item', 200))
    end.
Proof.
  intros Hitem Hv. unfold update_stock.
  assert (Hc : dict_contains item_id (inventory st) = Ok true).
  { unfold dict_getitem in Hitem. unfold dict_contains.
    destruct (hash item_id) as [k | e]; simpl in *; [ | discriminate ].
    destruct (lookup k (inventory st)); [ reflexivity | discriminate ]. }
  rewrite Hc. simpl. rewrite (getitem_lacks _ _ _ Hv). simpl.
  destruct (parse_quantity data) as [[q | early] | e]; simpl;
    [ rewrite Hitem | | ]; reflexivity.
Qed.

(** [add_inventory_item] with the three required fields and a new
    [item_id] is decided by the [try] block. *)
Lemma add_inventory_item_parse data now st item_id name v :
  getitem data "item_id" = Ok item_id ->
  getitem data "name" = Ok name ->
  getitem data "quantity" = Ok v ->
  dict_contains item_id (inventory st) = Ok false ->
  add_inventory_item data now st
  = parsed <- parse_quantity data ;;
    match parsed with
    | inr early => Ok (st, early)
    | inl quantity =>
        location <- get data "location" (JStr "Warehouse") ;;
        category <- get data "category" (JStr "General") ;;
        let item := Item.mk item_id name quantity location category now in
        inventory' <- dict_setitem item_id item (inventory st) ;;
        Ok (set_inventory st inventory',
            (BItemMsg "Inventory item added successfully" item, 201))
    end.
Proof.
  intros Hid Hname Hv Hnew. unfold add_inventory_item.
  assert (Hl : lacks data (all_in inventory_required data) = Ok false).
  { unfold lacks. rewrite (getitem_truthy _ _ _ Hid). simpl.
    rewrite (getitem_contains _ _ _ Hid). simpl.
    rewrite (getitem_contains _ _ _ Hname). simpl.
    rewrite (getitem_contains _ _ _ Hv). reflexivity. }
  rewrite Hl. simpl. rewrite Hid. simpl. rewrite Hnew. simpl.
  destruct (parse_quantity data) as [[q | early] | e]; simpl;
    [ rewrite Hname | | ]; reflexivity.
Qed.

(** C1. Whatever requests the service has served since it started with empty
    dictionaries, every item in [inventory] has a quantity of at least 0; a
    quantity that [int()] maps below zero is answered with status 400 by
    [add_inventory_item] and by [update_stock], the store left as it was. *)
Theorem quantity_never_negative :
  (forall rs : list request,
      Forall (fun item => 0 <= Item.quantity item)
        (values (inventory (fst (run empty_store rs)))))
  /\ (forall data now st item_id name v n,
         getitem data "item_id" = Ok item_id ->
         getitem data "name" = Ok name ->
         getitem data "quantity" = Ok v ->
         dict_contains item_id (inventory st) = Ok false ->
         py_int v = Ok n -> n < 0 ->
         add_inventory_item data now st
         = Ok (st, (BError "Quantity must be non-negative", 400)))
  /\ (forall item_id data now st item v n,
         dict_getitem item_id (inventory st) = Ok item ->
         getitem data "quantity" = Ok v ->
         py_int v = Ok n -> n < 0 ->
         update_stock item_id data now st
         = Ok (st, (BError "Quantity must be non-negative", 400))).
Proof.
  split; [ | split ].
  - intros rs. apply (run_nonneg rs empty_store). constructor.
  - intros data now st item_id name v n Hid Hname Hv Hnew Hn Hneg.
    rewrite (add_inventory_item_parse _ _ _ _ _ _ Hid Hname Hv Hnew).
    rewrite (parse_quantity_negative _ _ _ Hv Hn Hneg). reflexivity.
  - intros item_id data now st item v n Hitem Hv Hn Hneg.
    rewrite (update_stock_parse _ _ _ _ _ _ Hitem Hv).
    rewrite (parse_quantity_negative _ _ _ Hv Hn Hneg). reflexivity.
Qed.

(** C1 on the specification's example: the widget is stored with quantity
    100, and a stock update to -5 is refused with the store unchanged. *)
Lemma quantity_never_negative_example :
  Forall (fun item => 0 <= Item.quantity item)
    (values (inventory widget_store))
  /\ update_stock (JStr "ITM-001") (JDict [("quantity", JInt (-5))])
       "2026-01-02T00:00:00" widget_store
     = Ok (widget_store, (BError "Quantity must be non-negative", 400)).
Proof.
  split.
  - apply (proj1 quantity_never_negative
             [PostInventory widget "2026-01-01T00:00:00"]).
  - apply (proj2 (proj2 quantity_never_negative)) with
      (item := Item.mk (JStr "ITM-001") (JStr "Widget") 100
                 (JStr "Warehouse") (JStr "General") "2026-01-01T00:00:00")
      (v := JInt (-5)) (n := -5).
    + reflexivity.
    + reflexivity.
    + reflexivity.
    + lia.
Defined.

(** ** C4 and C10: what the handlers do with a quantity *)

(** A body without a usable quantity: no body, an empty one, or one
    [contains] finds no ["quantity"] in. *)
Lemma update_stock_missing item_id data now st item :
  dict_getitem item_id (inventory st) = Ok item ->
  truthy data = false \/ contains "quantity" data = Ok false ->
  update_stock item_id data now st
  = Ok (st, (BError "Quantity is required", 400)).
Proof.
  intros Hitem Hmiss. unfold update_stock.
  assert (Hc : dict_contains item_id (inventory st) = Ok true).
  { unfold dict_getitem in Hitem. unfold dict_contains.
    destruct (hash item_id) as [k | e]; simpl in *; [ | discriminate ].
    destruct (lookup k (inventory st)); [ reflexivity | discriminate ]. }
  rewrite Hc. simpl. unfold lacks.
  destruct Hmiss as [Hf | Hk].
  - rewrite Hf. reflexivity.
  - rewrite Hk. destruct (truthy data); reflexivity.
Qed.

Lemma update_stock_invalid item_id data now st item v e :
  dict_getitem item_id (inventory st) = Ok item ->
  getitem data "quantity" = Ok v ->
  py_int v = Raise e -> e = ValueError \/ e = TypeError ->
  update_stock item_id data now st
  = Ok (st, (BError "Quantity must be a valid integer", 400)).
Proof.
  intros Hitem Hv He Hcaught.
  rewrite (update_stock_parse _ _ _ _ _ _ Hitem Hv).
  rewrite (parse_quantity_invalid _ _ _ Hv He Hcaught). reflexivity.
Qed.

Lemma update_stock_negative item_id data now st item v n :
  dict_getitem item_id (inventory st) = Ok item ->
  getitem data "quantity" = Ok v ->
  py_int v = Ok n -> n < 0 ->
  update_stock item_id data now st
  = Ok (st, (BError "Quantity must be non-negative", 400)).
Proof.
  intros Hitem Hv Hn Hneg.
  rewrite (update_stock_parse _ _ _ _ _ _ Hitem Hv).
  rewrite (parse_quantity_negative _ _ _ Hv Hn Hneg). reflexivity.
Qed.

(** A quantity [int()] maps to [n >= 0]: the stored item gets [n] and the
    new timestamp, keeps its other four fields, and is the item of the
    response; every other item, and the other two dictionaries, stay. *)
Lemma update_stock_accepted item_id data now st item v n :
  dict_getitem item_id (inventory st) = Ok item ->
  getitem data "quantity" = Ok v ->
  py_int v = Ok n -> 0 <= n ->
  let item' :=
    Item.mk (Item.item_id item) (Item.name item) n
      (Item.location item) (Item.category item) now in
  exists st',
    update_stock item_id data now st
    = Ok (st', (BItemMsg "Stock updated successfully" item', 200))
    /\ dict_getitem item_id (inventory st') = Ok item'
    /\ (forall other, hash other <> hash item_id ->
          dict_getitem other (inventory st')
          = dict_getitem other (inventory st))
    /\ shipments st' = shipments st
    /\ orders st' = orders st.
Proof.
  intros Hitem Hv Hn Hpos item'.
  rewrite (update_stock_parse _ _ _ _ _ _ Hitem Hv).
  rewrite (parse_quantity_accepted _ _ _ Hv Hn Hpos). simpl.
  unfold dict_getitem in Hitem. unfold dict_setitem, dict_getitem.
  destruct (hash item_id) as [k | e] eqn:Hk; simpl in *; [ | discriminate ].
  eexists. split; [ reflexivity | ]. simpl.
  rewrite lookup_assign_same.
  split; [ reflexivity | split; [ | split; reflexivity ] ].
  intros other Hother. destruct (hash other) as [k' | e']; simpl.
  - rewrite lookup_assign_other; [ reflexivity | congruence ].
  - reflexivity.
Qed.

(** The exception the [except] clause does not name escapes the handler. *)
Lemma update_stock_overflow item_id data now st item v :
  dict_getitem item_id (inventory st) = Ok item ->
  getitem data "quantity" = Ok v ->
  py_int v = Raise OverflowError ->
  update_stock item_id data now st = Raise OverflowError.
Proof.
  intros Hitem Hv He.
  rewrite (update_stock_parse _ _ _ _ _ _ Hitem Hv).
  unfold parse_quantity. rewrite Hv. simpl. rewrite He. reflexivity.
Qed.

(** On a stored item and a body with a quantity, the "valid integer"
    response is given exactly when [int()] raises one of the two exceptions
    the [except] clause names. *)
Lemma update_stock_invalid_iff item_id data now st item v :
  dict_getitem item_id (inventory st) = Ok item ->
  getitem data "quantity" = Ok v ->
  update_stock item_id data now st
  = Ok (st, (BError "Quantity must be a valid integer", 400))
  <-> py_int v = Raise ValueError \/ py_int v = Raise TypeError.
Proof.
  intros Hitem Hv. split.
  - destruct (py_int v) as [n | e] eqn:Hn.
    + destruct (Z.lt_ge_cases n 0) as [Hneg | Hpos].
      * rewrite (update_stock_negative _ _ _ _ _ _ _ Hitem Hv Hn Hneg).
        discriminate.
      * destruct (update_stock_accepted _ _ now _ _ _ _ Hitem Hv Hn Hpos)
          as (st' & -> & _).
        discriminate.
    + destruct (py_int_raises _ _ Hn) as [[-> | ->] | [-> _]]; auto.
      rewrite (update_stock_overflow _ _ _ _ _ _ Hitem Hv Hn). discriminate.
  - intros [He | He];
      eapply update_stock_invalid; eauto.
Qed.

Lemma py_int_examples :
  py_int (JFloat float_3_7) = Ok 3
  /\ py_int (JFloat float_minus_half) = Ok 0
  /\ py_int (JBool true) = Ok 1
  /\ py_int (JStr "3.7") = Raise ValueError
  /\ py_int JNull = Raise TypeError
  /\ py_int (JFloat float_inf) = Raise OverflowError.
Proof. repeat split; reflexivity. Qed.

(** [add_inventory_item] with the required fields and a new id: a quantity
    [int()] maps to [n >= 0] is stored as [n]; one for which [int()] raises
    [ValueError] or [TypeError] is refused. *)
Lemma add_inventory_item_accepted data now st item_id name v n :
  getitem data "item_id" = Ok item_id ->
  getitem data "name" = Ok name ->
  getitem data "quantity" = Ok v ->
  dict_contains item_id (inventory st) = Ok false ->
  py_int v = Ok n -> 0 <= n ->
  exists st' item,
    add_inventory_item data now st
    = Ok (st', (BItemMsg "Inventory item added successfully" item, 201))
    /\ Item.quantity item = n
    /\ dict_getitem item_id (inventory st') = Ok item.
Proof.
  intros Hid Hname Hv Hnew Hn Hpos.
  rewrite (add_inventory_item_parse _ _ _ _ _ _ Hid Hname Hv Hnew).
  rewrite (parse_quantity_accepted _ _ _ Hv Hn Hpos). simpl.
  destruct (getitem_get _ _ "location" _ (JStr "Warehouse") Hid) as (l & ->).
  destruct (getitem_get _ _ "category" _ (JStr "General") Hid) as (c & ->).
  simpl.
  destruct (dict_contains_false _ _ Hnew) as (k & Hk & _).
  unfold dict_setitem, dict_getitem. rewrite Hk. simpl.
  eexists. eexists. split; [ reflexivity | ]. simpl.
  rewrite lookup_assign_same. split; reflexivity.
Qed.

Lemma add_inventory_item_invalid data now st item_id name v e :
  getitem data "item_id" = Ok item_id ->
  getitem data "name" = Ok name ->
  getitem data "quantity" = Ok v ->
  dict_contains item_id (inventory st) = Ok false ->
  py_int v = Raise e -> e = ValueError \/ e = TypeError ->
  add_inventory_item data now st
  = Ok (st, (BError "Quantity must be a valid integer", 400)).
Proof.
  intros Hid Hname Hv Hnew He Hcaught.
  rewrite (add_inventory_item_parse _ _ _ _ _ _ Hid Hname Hv Hnew).
  rewrite (parse_quantity_invalid _ _ _ Hv He Hcaught). reflexivity.
Qed.

(** The quantities of the examples, sent as stock updates of the widget:
    3.7 is stored as 3, -0.5 as 0, [true] as 1; the string "3.7" and [null]
    are refused as not a valid integer. *)
Lemma update_stock_examples :
  let put q :=
    snd (handle widget_store
           (PutInventoryStock "ITM-001" (JDict [("quantity", q)])
              "2026-01-02T00:00:00")) in
  let stored n :=
    (BItemMsg "Stock updated successfully"
       (Item.mk (JStr "ITM-001") (JStr "Widget") n (JStr "Warehouse")
          (JStr "General") "2026-01-02T00:00:00"), 200) in
  put (JFloat float_3_7) = stored 3
  /\ put (JFloat float_minus_half) = stored 0
  /\ put (JBool true) = stored 1
  /\ put (JStr "3.7") = (BError "Quantity must be a valid integer", 400)
  /\ put JNull = (BError "Quantity must be a valid integer", 400).
Proof. repeat split; reflexivity. Qed.

(** C4. On the widget of the specification's example, a stock update with
    an infinite quantity (what [json.loads] makes of [1e999]): [int()] cannot
    convert it, yet the answer is not the 400 of an unparseable quantity.
    [OverflowError] escapes [update_stock] and the service answers 500; the
    stored item is unchanged. *)
Theorem update_stock_infinite_quantity :
  let body := JDict [("quantity", JFloat float_inf)] in
  py_int (JFloat float_inf) = Raise OverflowError
  /\ update_stock (JStr "ITM-001") body "2026-01-02T00:00:00" widget_store
     = Raise OverflowError
  /\ handle widget_store
       (PutInventoryStock "ITM-001" body "2026-01-02T00:00:00")
     = (widget_store, (BError "Internal server error", 500)).
Proof. repeat split; reflexivity. Qed.

(** C10. The same quantity in [POST /inventory]: [int()] raises, and the
    answer is 500 instead of the 400 of a quantity that is not a valid
    integer. *)
Theorem add_inventory_item_infinite_quantity :
  let body :=
    JDict [("item_id", JStr "ITM-002"); ("name", JStr "Gadget");
           ("quantity", JFloat float_inf)] in
  py_int (JFloat float_inf) = Raise OverflowError
  /\ add_inventory_item body "2026-01-02T00:00:00" empty_store
     = Raise OverflowError
  /\ handle empty_store (PostInventory body "2026-01-02T00:00:00")
     = (empty_store, (BError "Internal server error", 500)).
Proof. repeat split; reflexivity. Qed.

(** ** C9 and C5: orders *)

(** [create_order] on a body with an [order_id] that is not a key yet. *)
Lemma create_order_new data now st order_id :
  getitem data "order_id" = Ok order_id ->
  dict_contains order_id (orders st) = Ok false ->
  exists customer items orders',
    let order := Order.mk order_id customer items "created" now in
    get data "customer" (JStr "Unknown") = Ok customer
    /\ get data "items" (JList []) = Ok items
    /\ dict_setitem order_id order (orders st) = Ok orders'
    /\ create_order data now st
       = Ok (set_orders st orders',
             (BOrderMsg "Order created successfully" order, 201)).
Proof.
  intros Hid Hnew. unfold create_order.
  rewrite (getitem_lacks _ _ _ Hid). simpl. rewrite Hid. simpl.
  rewrite Hnew. simpl.
  destruct (getitem_get _ _ "customer" _ (JStr "Unknown") Hid) as (c & Hc).
  destruct (getitem_get _ _ "items" _ (JList []) Hid) as (i & Hi).
  rewrite Hc, Hi. simpl.
  destruct (dict_contains_false _ _ Hnew) as (k & Hk & _).
  unfold dict_setitem. rewrite Hk. simpl.
  exists c, i, (assign k (Order.mk order_id c i "created" now) (orders st)).
  repeat split; reflexivity.
Qed.

(** [create_order] on a body whose [order_id] is a key already. *)
Lemma create_order_duplicate data now st order_id :
  getitem data "order_id" = Ok order_id ->
  dict_contains order_id (orders st) = Ok true ->
  create_order data now st = Ok (st, (BError "Order already exists", 409)).
Proof.
  intros Hid Hdup. unfold create_order.
  rewrite (getitem_lacks _ _ _ Hid). simpl. rewrite Hid. simpl.
  rewrite Hdup. reflexivity.
Qed.

(** The only way [create_order] answers 201. *)
Lemma create_order_201 data now st st' b :
  create_order data now st = Ok (st', (b, 201)) ->
  exists order_id customer items orders',
    let order := Order.mk order_id customer items "created" now in
    getitem data "order_id" = Ok order_id
    /\ dict_contains order_id (orders st) = Ok false
    /\ dict_setitem order_id order (orders st) = Ok orders'
    /\ st' = set_orders st orders'
    /\ b = BOrderMsg "Order created successfully" order.
Proof.
  unfold create_order. intros H.
  unbind H as missing Hm. destruct missing; [ discriminate | ].
  unbind H as order_id Hid. unbind H as present Hp.
  destruct present; [ discriminate | ].
  unbind H as customer Hc. unbind H as items Hi. unbind H as orders' Hs.
  injection H as <- <-.
  exists order_id, customer, items, orders'. repeat split; assumption.
Qed.

(** C9. For a body with an [order_id] that is not yet a key of [orders],
    [create_order] answers 201 and [get_order] with that [order_id] then
    answers 200 with the stored record, whose [order_id] is the one supplied
    and whose status is "created". *)
Theorem create_then_get_order data now st order_id :
  getitem data "order_id" = Ok order_id ->
  dict_contains order_id (orders st) = Ok false ->
  exists st' order,
    create_order data now st
    = Ok (st', (BOrderMsg "Order created successfully" order, 201))
    /\ get_order order_id st' = Ok (st', (BOrder order, 200))
    /\ Order.order_id order = order_id
    /\ Order.status order = "created".
Proof.
  intros Hid Hnew.
  destruct (create_order_new data now st order_id Hid Hnew)
    as (c & i & orders' & _ & _ & Hset & Hcreate).
  exists (set_orders st orders'), (Order.mk order_id c i "created" now).
  split; [ exact Hcreate | ].
  destruct (dict_getitem_setitem _ _ _ _ Hset) as [Hin Hget].
  unfold get_order. simpl. rewrite Hin. simpl. rewrite Hget.
  repeat split; reflexivity.
Qed.

Lemma create_then_get_order_example :
  exists st' order,
    create_order sample_order "2026-01-01T00:00:00" empty_store
    = Ok (st', (BOrderMsg "Order created successfully" order, 201))
    /\ get_order (JStr "ORD-001") st' = Ok (st', (BOrder order, 200))
    /\ Order.order_id order = JStr "ORD-001"
    /\ Order.status order = "created".
Proof.
  apply (create_then_get_order sample_order "2026-01-01T00:00:00"
           empty_store (JStr "ORD-001")).
  - reflexivity.
  - reflexivity.
Defined.

(** The handlers that write to another dictionary leave [orders] alone. *)
Lemma create_shipment_orders data now1 now2 st st' resp :
  create_shipment data now1 now2 st = Ok (st', resp) ->
  orders st' = orders st.
Proof.
  unfold create_shipment. intros H.
  unbind H as missing Hm. destruct missing; [ congruence | ].
  unbind H as shipment_id Hid. unbind H as present Hp.
  destruct present; [ congruence | ].
  unbind H as origin Ho. unbind H as destination Hd.
  unbind H as estimated He. unbind H as shipments' Hs.
  injection H as <- _. reflexivity.
Qed.

Lemma update_shipment_location_orders sid data now st st' resp :
  update_shipment_location sid data now st = Ok (st', resp) ->
  orders st' = orders st.
Proof.
  unfold update_shipment_location. intros H.
  unbind H as present Hp. destruct present; simpl in H; [ | congruence ].
  unbind H as missing Hm. destruct missing; [ congruence | ].
  unbind H as shipment Hsh. unbind H as location Hl.
  unbind H as status Hst. unbind H as notes Hn. unbind H as shipments' Hs.
  injection H as <- _. reflexivity.
Qed.

Lemma add_inventory_item_orders data now st st' resp :
  add_inventory_item data now st = Ok (st', resp) ->
  orders st' = orders st.
Proof.
  unfold add_inventory_item. intros H.
  unbind H as missing Hm. destruct missing; [ congruence | ].
  unbind H as item_id Hid. unbind H as present Hp.
  destruct present; [ congruence | ].
  unbind H as parsed Hq. destruct parsed as [q | early]; [ | congruence ].
  unbind H as name Hn. unbind H as location Hl. unbind H as category Hc.
  unbind H as inventory' Hs. injection H as <- _. reflexivity.
Qed.

Lemma update_stock_orders item_id data now st st' resp :
  update_stock item_id data now st = Ok (st', resp) ->
  orders st' = orders st.
Proof.
  unfold update_stock. intros H.
  unbind H as present Hp. destruct present; simpl in H; [ | congruence ].
  unbind H as missing Hm. destruct missing; [ congruence | ].
  unbind H as parsed Hq. destruct parsed as [q | early]; [ | congruence ].
  unbind H as item Hi. unbind H as inventory' Hs.
  injection H as <- _. reflexivity.
Qed.

(** [create_order] only ever adds a key. *)
Lemma create_order_keeps data now st st' resp (k : key) (o : Order.t) :
  create_order data now st = Ok (st', resp) ->
  lookup k (orders st) = Some o -> lookup k (orders st') = Some o.
Proof.
  unfold create_order. intros H Hk.
  unbind H as missing Hm. destruct missing; [ congruence | ].
  unbind H as order_id Hid. unbind H as present Hp.
  destruct present; [ congruence | ].
  unbind H as customer Hc. unbind H as items Hi.
  unbind H as orders' Hs. injection H as <- _. simpl.
  destruct (dict_contains_false _ _ Hp) as (k1 & Hk1 & Hnone).
  destruct (dict_setitem_Ok _ _ _ _ Hs) as (k2 & Hk2 & ->).
  rewrite lookup_assign_other; [ exact Hk | ].
  assert (k2 = k1) by congruence. congruence.
Qed.

(** No handler changes or removes a stored order. *)
Lemma handle_keeps_order (st : store) (r : request) (k : key) (o : Order.t) :
  lookup k (orders st) = Some o ->
  lookup k (orders (fst (handle st r))) = Some o.
Proof.
  intros Hk. unfold handle.
  destruct (dispatch r st) as [[st' resp] | e] eqn:H; simpl; [ | exact Hk ].
  destruct r; cbn [dispatch] in H.
  - eapply create_order_keeps; eassumption.
  - rewrite (get_order_store _ _ _ _ H). exact Hk.
  - rewrite (create_shipment_orders _ _ _ _ _ _ H). exact Hk.
  - rewrite (get_shipment_store _ _ _ _ H). exact Hk.
  - rewrite (update_shipment_location_orders _ _ _ _ _ _ H). exact Hk.
  - unfold list_shipments in H. congruence.
  - unfold get_inventory in H. congruence.
  - rewrite (add_inventory_item_orders _ _ _ _ _ H). exact Hk.
  - rewrite (get_inventory_item_store _ _ _ _ H). exact Hk.
  - rewrite (update_stock_orders _ _ _ _ _ _ H). exact Hk.
  - unbind H as resp' Hr. congruence.
Qed.

Lemma run_keeps_order (rs : list request) (st : store) (k : key)
  (o : Order.t) :
  lookup k (orders st) = Some o ->
  lookup k (orders (fst (run st rs))) = Some o.
Proof.
  revert st. induction rs as [| r rs IH]; intros st Hk.
  - exact Hk.
  - rewrite run_cons. apply IH. apply handle_keeps_order. exact Hk.
Qed.

(** C5. Once [create_order] has answered 201 for an [order_id], and whatever
    requests the service has served since, a [create_order] whose body has
    that [order_id] answers 409 and returns the store as it found it: the
    record under that [order_id] is still the one the first call wrote. *)
Theorem duplicate_order_rejected data1 now1 st0 st1 order rs data2 now2 :
  create_order data1 now1 st0
  = Ok (st1, (BOrderMsg "Order created successfully" order, 201)) ->
  getitem data2 "order_id" = Ok (Order.order_id order) ->
  let st2 := fst (run st1 rs) in
  create_order data2 now2 st2 = Ok (st2, (BError "Order already exists", 409))
  /\ dict_getitem (Order.order_id order) (orders st2) = Ok order.
Proof.
  intros H1 Hid2 st2.
  destruct (create_order_201 _ _ _ _ _ H1)
    as (oid & c & i & orders' & Hid & Hnew & Hset & -> & Hb).
  injection Hb as ->. simpl in *.
  destruct (dict_setitem_Ok _ _ _ _ Hset) as (k & Hk & ->).
  assert (Hst2 : lookup k (orders st2)
                 = Some (Order.mk oid c i "created" now1)).
  { apply run_keeps_order. simpl. apply lookup_assign_same. }
  assert (Hin : dict_contains oid (orders st2) = Ok true).
  { unfold dict_contains. rewrite Hk. simpl. rewrite Hst2. reflexivity. }
  split.
  - apply create_order_duplicate with (order_id := oid); assumption.
  - unfold dict_getitem. rewrite Hk. simpl. rewrite Hst2. reflexivity.
Qed.

(** C5 on the fixture: the order is created, a shipment is created in
    between, and a second order with the same id and another customer is
    refused. *)
Lemma duplicate_order_rejected_example :
  let st1 :=
    fst (handle empty_store (PostOrder sample_order "2026-01-01T00:00:00")) in
  let order :=
    Order.mk (JStr "ORD-001") (JStr "John Doe")
      (JList [JStr "item1"; JStr "item2"]) "created" "2026-01-01T00:00:00" in
  let rs :=
    [PostShipment
       (JDict [("shipment_id", JStr "SHP-001"); ("origin", JStr "NY");
               ("destination", JStr "LA")])
       "2026-01-01T00:00:01" "2026-01-01T00:00:02"] in
  let data2 :=
    JDict [("order_id", JStr "ORD-001"); ("customer", JStr "Jane Roe")] in
  let st2 := fst (run st1 rs) in
  create_order data2 "2026-01-03T00:00:00" st2
  = Ok (st2, (BError "Order already exists", 409))
  /\ dict_getitem (JStr "ORD-001") (orders st2) = Ok order.
Proof.
  intros st1 order rs data2.
  apply (duplicate_order_rejected sample_order "2026-01-01T00:00:00"
           empty_store st1 order rs data2 "2026-01-03T00:00:00").
  - reflexivity.
  - reflexivity.
Defined.

(** ** C6: creating a shipment *)

Lemma create_shipment_new data now1 now2 st shipment_id origin destination :
  getitem data "shipment_id" = Ok shipment_id ->
  getitem data "origin" = Ok origin ->
  getitem data "destination" = Ok destination ->
  dict_contains shipment_id (shipments st) = Ok false ->
  exists estimated_delivery k,
    let shipment :=
      Shipment.mk shipment_id origin destination (JStr "pending") origin
        now1 estimated_delivery
        [Entry.mk origin (JStr "pending") now2 None] in
    get data "estimated_delivery" JNull = Ok estimated_delivery
    /\ hash shipment_id = Ok k
    /\ lookup k (shipments st) = None
    /\ create_shipment data now1 now2 st
       = Ok (set_shipments st (assign k shipment (shipments st)),
             (BShipmentMsg "Shipment created successfully" shipment, 201)).
Proof.
  intros Hid Ho Hd Hnew. unfold create_shipment.
  assert (Hl : lacks data (all_in shipment_required data) = Ok false).
  { unfold lacks. rewrite (getitem_truthy _ _ _ Hid). simpl.
    rewrite (getitem_contains _ _ _ Hid). simpl.
    rewrite (getitem_contains _ _ _ Ho). simpl.
    rewrite (getitem_contains _ _ _ Hd). reflexivity. }
  rewrite Hl. simpl. rewrite Hid. simpl. rewrite Hnew. simpl.
  rewrite Ho, Hd. simpl.
  destruct (getitem_get _ _ "estimated_delivery" _ JNull Hid) as (ed & Hed).
  rewrite Hed. simpl.
  destruct (dict_contains_false _ _ Hnew) as (k & Hk & Hnone).
  unfold dict_setitem. rewrite Hk. simpl.
  exists ed, k. repeat split; assumption || reflexivity.
Qed.

(** A JSON object without one of the required keys. *)
Lemma all_in_missing (fields : list string) (d : list (string * json)) :
  (exists f, In f fields /\ assoc f d = None) ->
  all_in fields (JDict d) = Ok false.
Proof.
  induction fields as [| g fields IH]; intros (f & Hin & Hf).
  - destruct Hin.
  - simpl. destruct (assoc g d) eqn:Hg; [ | reflexivity ].
    apply IH. destruct Hin as [-> | Hin]; [ congruence | eauto ].
Qed.

Lemma create_shipment_missing d now1 now2 st :
  (exists f, In f shipment_required /\ assoc f d = None) ->
  create_shipment (JDict d) now1 now2 st
  = Ok (st, (BMissing "Missing required fields"
               ["shipment_id"; "origin"; "destination"], 400)).
Proof.
  intros Hmiss. unfold create_shipment, lacks.
  rewrite (all_in_missing _ _ Hmiss).
  destruct (truthy (JDict d)); reflexivity.
Qed.

(** C6. A body with [shipment_id], [origin] and [destination], the id not
    yet a key of [shipments]: [create_shipment] answers 201 and stores under
    the id a record with status "pending", [current_location] the origin and
    a [tracking_history] of the one entry (origin, "pending").  A JSON
    object that lacks one of the three keys: the answer is 400, its body
    lists the three required names, and the store is returned as it was. *)
Theorem create_shipment_spec :
  (forall data now1 now2 st shipment_id origin destination,
      getitem data "shipment_id" = Ok shipment_id ->
      getitem data "origin" = Ok origin ->
      getitem data "destination" = Ok destination ->
      dict_contains shipment_id (shipments st) = Ok false ->
      exists st' shipment entry,
        create_shipment data now1 now2 st
        = Ok (st', (BShipmentMsg "Shipment created successfully" shipment,
                    201))
        /\ dict_getitem shipment_id (shipments st') = Ok shipment
        /\ Shipment.status shipment = JStr "pending"
        /\ Shipment.current_location shipment = origin
        /\ Shipment.tracking_history shipment = [entry]
        /\ Entry.location entry = origin
        /\ Entry.status entry = JStr "pending")
  /\ (forall d now1 now2 st,
         (exists f, In f ["shipment_id"; "origin"; "destination"]
                    /\ assoc f d = None) ->
         create_shipment (JDict d) now1 now2 st
         = Ok (st, (BMissing "Missing required fields"
                      ["shipment_id"; "origin"; "destination"], 400))).
Proof.
  split.
  - intros data now1 now2 st sid origin destination Hid Ho Hd Hnew.
    destruct (create_shipment_new _ now1 now2 _ _ _ _ Hid Ho Hd Hnew)
      as (ed & k & _ & Hk & _ & Hcreate).
    eexists. eexists. eexists.
    split; [ exact Hcreate | ].
    simpl. unfold dict_getitem. rewrite Hk. simpl.
    rewrite lookup_assign_same. repeat split; reflexivity.
  - intros d now1 now2 st Hmiss. apply create_shipment_missing. exact Hmiss.
Qed.

Lemma create_shipment_spec_example :
  (exists st' shipment entry,
      create_shipment sample_shipment "2026-01-01T00:00:00"
        "2026-01-01T00:00:01" empty_store
      = Ok (st', (BShipmentMsg "Shipment created successfully" shipment, 201))
      /\ dict_getitem (JStr "SHP-001") (shipments st') = Ok shipment
      /\ Shipment.status shipment = JStr "pending"
      /\ Shipment.current_location shipment = JStr "NY"
      /\ Shipment.tracking_history shipment = [entry]
      /\ Entry.location entry = JStr "NY"
      /\ Entry.status entry = JStr "pending")
  /\ create_shipment (JDict [("shipment_id", JStr "SHP-002")])
       "2026-01-01T00:00:00" "2026-01-01T00:00:01" empty_store
     = Ok (empty_store,
           (BMissing "Missing required fields"
              ["shipment_id"; "origin"; "destination"], 400)).
Proof.
  split.
  - apply (proj1 create_shipment_spec sample_shipment "2026-01-01T00:00:00"
             "2026-01-01T00:00:01" empty_store (JStr "SHP-001") (JStr "NY")
             (JStr "LA")).
    + reflexivity.
    + reflexivity.
    + reflexivity.
    + reflexivity.
  - apply (proj2 create_shipment_spec).
    exists "origin". split; [ simpl; auto | reflexivity ].
Defined.

(** ** C7: the effect of a location update *)

Lemma keys_assign_present {V : Type} (k : key) (v x : V) (d : pydict V) :
  lookup k d = Some x -> map fst (assign k v d) = map fst d.
Proof.
  induction d as [| [k' v'] d IH]; simpl; [ discriminate | ].
  destruct (key_eq_dec k' k); simpl; intros H.
  - reflexivity.
  - rewrite IH; [ reflexivity | exact H ].
Qed.

Lemma dict_getitem_Ok {V : Type} (v : json) (d : pydict V) (x : V) :
  dict_getitem v d = Ok x ->
  exists k, hash v = Ok k /\ lookup k d = Some x
            /\ dict_contains v d = Ok true.
Proof.
  unfold dict_getitem, dict_contains. intros H.
  destruct (hash v) as [k | e]; simpl in *; [ | discriminate ].
  destruct (lookup k d) as [y |] eqn:Hy; [ | discriminate ].
  injection H as ->. exists k. repeat split; reflexivity || assumption.
Qed.

Lemma update_shipment_location_moved sid d now st shipment location :
  dict_getitem sid (shipments st) = Ok shipment ->
  assoc "location" d = Some location ->
  exists k,
    hash sid = Ok k
    /\ lookup k (shipments st) = Some shipment
    /\ update_shipment_location sid (JDict d) now st
       = Ok (set_shipments st
               (assign k (moved shipment d location now) (shipments st)),
             (BShipmentMsg "Location updated successfully"
                (moved shipment d location now), 200)).
Proof.
  intros Hsh Hloc.
  destruct (dict_getitem_Ok _ _ _ Hsh) as (k & Hk & Hlk & Hin).
  exists k. split; [ exact Hk | split; [ exact Hlk | ] ].
  unfold update_shipment_location. rewrite Hin. simpl.
  unfold lacks. rewrite (assoc_truthy _ _ _ Hloc). simpl.
  rewrite Hloc. simpl. rewrite Hsh. simpl.
  unfold dict_setitem. rewrite Hk. reflexivity.
Qed.

(** C7. On a stored shipment and a body with [location],
    [update_shipment_location] answers 200 with the record [moved]
    describes: [current_location] is the new location, [status] is
    [body.status] or "in_transit", one entry (location, that status, the
    time, [body.notes] or "") is appended to [tracking_history], and the id,
    origin, destination, creation time, estimated delivery and the earlier
    entries are kept.  That record is what is stored under the id; every
    other shipment, the set and order of the shipment keys, [orders] and
    [inventory] are as before. *)
Theorem update_shipment_location_frame sid d now st shipment location :
  dict_getitem sid (shipments st) = Ok shipment ->
  assoc "location" d = Some location ->
  exists st',
    update_shipment_location sid (JDict d) now st
    = Ok (st', (BShipmentMsg "Location updated successfully"
                  (moved shipment d location now), 200))
    /\ dict_getitem sid (shipments st') = Ok (moved shipment d location now)
    /\ (forall other, hash other <> hash sid ->
          dict_getitem other (shipments st')
          = dict_getitem other (shipments st))
    /\ map fst (shipments st') = map fst (shipments st)
    /\ orders st' = orders st
    /\ inventory st' = inventory st.
Proof.
  intros Hsh Hloc.
  destruct (update_shipment_location_moved _ _ now _ _ _ Hsh Hloc)
    as (k & Hk & Hlk & Hupd).
  eexists. split; [ exact Hupd | ]. simpl.
  split; [ | split; [ | split; [ | split; reflexivity ] ] ].
  - unfold dict_getitem. rewrite Hk. simpl.
    rewrite lookup_assign_same. reflexivity.
  - intros other Hother. unfold dict_getitem.
    destruct (hash other) as [k' | e']; simpl; [ | reflexivity ].
    rewrite lookup_assign_other; [ reflexivity | congruence ].
  - eapply keys_assign_present. exact Hlk.
Qed.

(** C7 on the specification's example: the update to Chicago. *)
Lemma update_shipment_location_frame_example :
  let d := [("location", JStr "Chicago"); ("status", JStr "in_transit")] in
  exists st',
    update_shipment_location (JStr "SHP-001") (JDict d)
      "2026-01-02T00:00:00" shipped_store
    = Ok (st', (BShipmentMsg "Location updated successfully"
                  (moved shipped d (JStr "Chicago") "2026-01-02T00:00:00"),
                200))
    /\ dict_getitem (JStr "SHP-001") (shipments st')
       = Ok (moved shipped d (JStr "Chicago") "2026-01-02T00:00:00")
    /\ (forall other, hash other <> hash (JStr "SHP-001") ->
          dict_getitem other (shipments st')
          = dict_getitem other (shipments shipped_store))
    /\ map fst (shipments st') = map fst (shipments shipped_store)
    /\ orders st' = orders shipped_store
    /\ inventory st' = inventory shipped_store.
Proof.
  intros d.
  apply (update_shipment_location_frame (JStr "SHP-001") d
           "2026-01-02T00:00:00" shipped_store shipped (JStr "Chicago")).
  - reflexivity.
  - reflexivity.
Defined.

(** ** C2: the tracking history follows the calls *)

Lemma update_locations_history sid updates :
  Forall has_location updates ->
  forall st shipment,
    dict_getitem sid (shipments st) = Ok shipment ->
    exists st' shipment',
      update_locations sid updates st
      = Ok (st', repeat 200 (List.length updates))
      /\ dict_getitem sid (shipments st') = Ok shipment'
      /\ Shipment.tracking_history shipment'
         = (Shipment.tracking_history shipment ++ map entry_of updates)%list.
Proof.
  induction 1 as [| [d now] updates Hu _ IH]; intros st shipment Hsh.
  - exists st, shipment. simpl. rewrite app_nil_r. auto.
  - unfold has_location in Hu. simpl in Hu.
    destruct (assoc "location" d) as [location |] eqn:Hloc; [ | congruence ].
    destruct (update_shipment_location_moved _ _ now _ _ _ Hsh Hloc)
      as (k & Hk & Hlk & Hupd).
    set (st1 := set_shipments st
                  (assign k (moved shipment d location now) (shipments st)))
      in *.
    assert (Hsh1 : dict_getitem sid (shipments st1)
                   = Ok (moved shipment d location now)).
    { unfold dict_getitem. rewrite Hk. simpl.
      rewrite lookup_assign_same. reflexivity. }
    destruct (IH st1 _ Hsh1) as (st' & shipment' & Hrun & Hget & Hhist).
    exists st', shipment'. simpl update_locations. rewrite Hupd. simpl.
    rewrite Hrun. simpl. split; [ reflexivity | split; [ exact Hget | ] ].
    rewrite Hhist. simpl. rewrite <- app_assoc. simpl.
    unfold entry_of. simpl. rewrite Hloc. reflexivity.
Qed.

(** C2. After [create_shipment] has answered 201 for a shipment, N calls of
    [update_shipment_location] on its id, each with a body that has a
    [location], all answer 200 and leave a [tracking_history] of N+1
    entries: the entry written at creation, then the entry of each call in
    the order of the calls, equal or repeated bodies included. *)
Theorem tracking_history_in_call_order
  data now1 now2 st st1 shipment updates :
  create_shipment data now1 now2 st
  = Ok (st1, (BShipmentMsg "Shipment created successfully" shipment, 201)) ->
  Forall has_location updates ->
  exists stN shipmentN,
    update_locations (Shipment.shipment_id shipment) updates st1
    = Ok (stN, repeat 200 (List.length updates))
    /\ dict_getitem (Shipment.shipment_id shipment) (shipments stN)
       = Ok shipmentN
    /\ Shipment.tracking_history shipmentN
       = Entry.mk (Shipment.origin shipment) (JStr "pending") now2 None
         :: map entry_of updates
    /\ len (Shipment.tracking_history shipmentN) = len updates + 1.
Proof.
  intros Hcreate Hvalid.
  assert (Hstored :
    dict_getitem (Shipment.shipment_id shipment) (shipments st1) = Ok shipment
    /\ Shipment.tracking_history shipment
       = [Entry.mk (Shipment.origin shipment) (JStr "pending") now2 None]).
  { unfold create_shipment in Hcreate.
    unbind Hcreate as missing Hm. destruct missing; [ discriminate | ].
    unbind Hcreate as shipment_id Hid. unbind Hcreate as present Hp.
    destruct present; [ discriminate | ].
    unbind Hcreate as origin Ho. unbind Hcreate as destination Hd.
    unbind Hcreate as estimated He. unbind Hcreate as shipments' Hs.
    injection Hcreate as <- <-. simpl.
    split; [ | reflexivity ].
    apply (dict_getitem_setitem _ _ _ _ Hs). }
  destruct Hstored as [Hget Hfirst].
  destruct (update_locations_history _ _ Hvalid _ _ Hget)
    as (stN & shipmentN & Hrun & HgetN & Hhist).
  exists stN, shipmentN.
  split; [ exact Hrun | split; [ exact HgetN | ] ].
  rewrite Hhist, Hfirst. simpl. split; [ reflexivity | ].
  unfold len. simpl List.length. rewrite length_map. lia.
Qed.

(** C2 on the specification's shipment: two updates with the same body, then
    one without status or notes. *)
Lemma tracking_history_in_call_order_example :
  let chicago := [("location", JStr "Chicago"); ("status", JStr "in_transit")] in
  let updates :=
    [(chicago, "2026-01-02T00:00:00"); (chicago, "2026-01-03T00:00:00");
     ([("location", JStr "Denver")], "2026-01-04T00:00:00")] in
  exists stN shipmentN,
    update_locations (JStr "SHP-001") updates shipped_store
    = Ok (stN, [200; 200; 200])
    /\ dict_getitem (JStr "SHP-001") (shipments stN) = Ok shipmentN
    /\ Shipment.tracking_history shipmentN
       = Entry.mk (JStr "NY") (JStr "pending") "2026-01-01T00:00:01" None
         :: map entry_of updates
    /\ len (Shipment.tracking_history shipmentN) = 3 + 1.
Proof.
  intros chicago updates.
  apply (tracking_history_in_call_order sample_shipment
           "2026-01-01T00:00:00" "2026-01-01T00:00:01" empty_store
           shipped_store shipped updates).
  - reflexivity.
  - repeat constructor; discriminate.
Defined.

(** ** C8: listing shipments *)

Lemma eq_str_true (k : string) (v : json) :
  eq_str k v = true <-> v = JStr k.
Proof.
  destruct v; simpl; try (split; [ discriminate | intros H; discriminate ]).
  rewrite String.eqb_eq. split; [ intros -> | intros H; injection H ]; auto.
Qed.

(** C8, as the code has it. Without a status filter, or with the empty
    string as filter, [list_shipments] returns every shipment; with a
    non-empty filter it returns, in the order of [shipments], exactly the
    shipments whose status is that string.  In each case [count] is the
    length of the returned list, the answer is 200 and the store is the one
    given. *)
Theorem list_shipments_spec (status_filter : option string) (st : store) :
  exists listed,
    list_shipments status_filter st
    = Ok (st, (BShipments (len listed) listed, 200))
    /\ match status_filter with
       | None => listed = values (shipments st)
       | Some f =>
           if String.eqb f "" then listed = values (shipments st)
           else
             listed
             = filter (fun s => eq_str f (Shipment.status s))
                 (values (shipments st))
             /\ forall s, In s listed <->
                          In s (values (shipments st))
                          /\ Shipment.status s = JStr f
       end.
Proof.
  unfold list_shipments. eexists. split; [ reflexivity | ].
  destruct status_filter as [f |]; simpl; [ | reflexivity ].
  destruct (String.eqb f ""); simpl; [ reflexivity | ].
  split; [ reflexivity | ].
  intros s. rewrite filter_In. unfold status_is.
  rewrite eq_str_true. reflexivity.
Qed.

(** C8 as stated fails for the filter of [GET /shipments?status=]: the
    empty string is a filter value no status equals here, and the one
    shipment, whose status is "pending", is returned all the same. *)
Lemma list_shipments_empty_filter :
  list_shipments (Some "") shipped_store
  = Ok (shipped_store, (BShipments 1 [shipped], 200))
  /\ Shipment.status shipped <> JStr ""
  /\ ~ (forall s, In s [shipped] <->
                  In s (values (shipments shipped_store))
                  /\ Shipment.status s = JStr "").
Proof.
  split; [ reflexivity | split; [ discriminate | ] ].
  intros H. destruct (proj1 (H shipped)) as [_ Hs].
  - simpl. auto.
  - discriminate.
Qed.

(** ** C3: route optimization *)

Lemma all_in_route d start waypoints end_ :
  assoc "start" d = Some start ->
  assoc "waypoints" d = Some waypoints ->
  assoc "end" d = Some end_ ->
  lacks (JDict d) (all_in route_required (JDict d)) = Ok false.
Proof.
  intros Hs Hw He. unfold lacks. rewrite (assoc_truthy _ _ _ Hs).
  simpl. rewrite Hs. simpl. rewrite Hw. simpl. rewrite He. reflexivity.
Qed.

(** [optimize_route] on a JSON object never raises, and answers 400 unless
    all three fields are there and [waypoints] is a list. *)
Lemma optimize_route_not_list d waypoints :
  assoc "waypoints" d = Some waypoints ->
  (forall l, waypoints <> JList l) ->
  exists b, optimize_route (JDict d) = Ok (b, 400).
Proof.
  intros Hw Hnl. unfold optimize_route, lacks.
  rewrite (assoc_truthy _ _ _ Hw).
  unfold route_required. cbn [all_in contains].
  destruct (assoc "start" d) as [start |]; cbn [bind negb];
    [ | eexists; reflexivity ].
  rewrite Hw. cbn [bind negb].
  destruct (assoc "end" d) as [end_ |]; cbn [bind negb];
    [ | eexists; reflexivity ].
  cbn [getitem]. rewrite Hw. cbn [bind].
  destruct waypoints; try (eexists; reflexivity).
  exfalso. eapply Hnl. reflexivity.
Qed.

(** C3. For a body with [start], [end] and a list [waypoints],
    [optimize_route] answers 200 with the three values as given,
    [total_stops] the number of waypoints plus one,
    [estimated_time_minutes] thirty times that, [optimized] true and
    [route_efficiency] "optimal".  A body whose [waypoints] is not a list
    is answered 400.  The answer is a function of the body: serving the
    request returns the store it was given, and the same response whatever
    that store is. *)
Theorem optimize_route_spec :
  (forall d start l end_,
      assoc "start" d = Some start ->
      assoc "waypoints" d = Some (JList l) ->
      assoc "end" d = Some end_ ->
      optimize_route (JDict d)
      = Ok (BRouteMsg "Route optimized successfully"
              (Route.mk start (JList l) end_ (len l + 1) ((len l + 1) * 30)
                 true "optimal"),
            200))
  /\ (forall d waypoints,
         assoc "waypoints" d = Some waypoints ->
         (forall l, waypoints <> JList l) ->
         exists b, optimize_route (JDict d) = Ok (b, 400))
  /\ (forall data st st',
         fst (handle st (PostRouteOptimize data)) = st
         /\ snd (handle st (PostRouteOptimize data))
            = snd (handle st' (PostRouteOptimize data))).
Proof.
  split; [ | split ].
  - intros d start l end_ Hs Hw He. unfold optimize_route.
    rewrite (all_in_route _ _ _ _ Hs Hw He). simpl.
    rewrite Hw. simpl. rewrite Hs. simpl. rewrite He. reflexivity.
  - exact optimize_route_not_list.
  - intros data st st'. unfold handle. cbn [dispatch].
    destruct (optimize_route data) as [resp | e]; simpl; auto.
Qed.

(** C3 on the test suite's route: three waypoints, four stops, 120
    minutes; and on its body whose waypoints are a string. *)
Lemma optimize_route_spec_example :
  optimize_route
    (JDict [("start", JStr "New York");
            ("waypoints",
             JList [JStr "Philadelphia"; JStr "Baltimore";
                    JStr "Washington DC"]);
            ("end", JStr "Atlanta")])
  = Ok (BRouteMsg "Route optimized successfully"
          (Route.mk (JStr "New York")
             (JList [JStr "Philadelphia"; JStr "Baltimore";
                     JStr "Washington DC"])
             (JStr "Atlanta") 4 120 true "optimal"),
        200)
  /\ exists b,
       optimize_route
         (JDict [("start", JStr "New York");
                 ("waypoints", JStr "not-a-list");
                 ("end", JStr "Atlanta")])
       = Ok (b, 400).
Proof.
  split.
  - apply (proj1 optimize_route_spec
             [("start", JStr "New York");
              ("waypoints",
               JList [JStr "Philadelphia"; JStr "Baltimore";
                      JStr "Washington DC"]);
              ("end", JStr "Atlanta")]
             (JStr "New York")
             [JStr "Philadelphia"; JStr "Baltimore"; JStr "Washington DC"]
             (JStr "Atlanta")).
    + reflexivity.
    + reflexivity.
    + reflexivity.
  - apply (proj1 (proj2 optimize_route_spec)) with
      (waypoints := JStr "not-a-list").
    + reflexivity.
    + intros l. discriminate.
Defined.

(** * Further properties of the handlers *)

(** ** One request, one effect *)

Lemma assign_absent {V : Type} (k : key) (v : V) (d : pydict V) :
  lookup k d = None -> assign k v d = (d ++ [(k, v)])%list.
Proof.
  induction d as [| [k' v'] d IH]; simpl; [ reflexivity | ].
  destruct (key_eq_dec k' k); [ discriminate | ].
  intros H. rewrite IH; [ reflexivity | exact H ].
Qed.

Lemma length_assign_present {V : Type} (k : key) (v x : V) (d : pydict V) :
  lookup k d = Some x -> List.length (assign k v d) = List.length d.
Proof.
  intros H. rewrite <- (length_map fst (assign k v d)).
  rewrite (keys_assign_present k v x d H). apply length_map.
Qed.

Lemma lookup_In {V : Type} (k : key) (x : V) (d : pydict V) :
  lookup k d = Some x -> In x (values d).
Proof.
  unfold values. induction d as [| [k' v'] d IH]; simpl; [ discriminate | ].
  destruct (key_eq_dec k' k); intros H.
  - injection H as ->. auto.
  - auto.
Qed.

Lemma lookup_In_pair {V : Type} (k : key) (x : V) (d : pydict V) :
  lookup k d = Some x -> In (k, x) d.
Proof.
  induction d as [| [k' v'] d IH]; simpl; [ discriminate | ].
  destruct (key_eq_dec k' k) as [-> | n]; intros H.
  - injection H as ->. auto.
  - auto.
Qed.

(** What a successful evaluation of the shared [try] block tells. *)
Lemma parse_quantity_inr (data : json) (early : response) :
  parse_quantity data = Ok (inr early) -> snd early = 400.
Proof.
  unfold parse_quantity.
  destruct (bind (getitem data "quantity") _) as [n | e].
  - destruct (n <? 0); intros H; [ | discriminate ].
    injection H as <-. reflexivity.
  - destruct e; intros H; try discriminate; injection H as <-; reflexivity.
Qed.

Lemma get_Ok_dict (d : list (string * json)) (k : string) (dflt v : json) :
  get (JDict d) k dflt = Ok v ->
  v = match assoc k d with Some x => x | None => dflt end.
Proof. simpl. intros H. injection H as <-. reflexivity. Qed.

Ltac no_effect :=
  apply effect_none; [ discriminate | simpl; auto; discriminate ].

(** [handle] has one of the six effects, and answers the code that goes
    with it. *)
Lemma handle_effect (st : store) (r : request) :
  effect st r (fst (handle st r)) (status_code st r).
Proof.
  unfold status_code, handle.
  destruct (dispatch r st) as [[st' [b code]] | e] eqn:H; simpl;
    [ | apply effect_none;
        [ discriminate | destruct r; simpl; intros Hg; try discriminate;
          cbn [dispatch] in H ] ].
  - destruct r; cbn [dispatch] in H.
    + unfold create_order in H.
      unbind H as missing Hm.
      destruct missing; [ injection H as <- _ <-; no_effect | ].
      unbind H as order_id Hid. unbind H as present Hp.
      destruct present; [ injection H as <- _ <-; no_effect | ].
      unbind H as customer Hc. unbind H as items Hi. unbind H as orders' Hs.
      injection H as <- _ <-.
      destruct (dict_contains_false _ _ Hp) as (k & Hk & Hnone).
      destruct (dict_setitem_Ok _ _ _ _ Hs) as (k2 & Hk2 & ->).
      assert (k2 = k) by congruence. subst k2.
      apply effect_order; [ exact Hnone | apply hash_Ok; exact Hk ].
    + unfold get_order in H. unbind H as present Hp.
      destruct present; cbn [negb] in H.
      * unbind H as order Ho. injection H as <- _ <-.
        apply effect_none; [ discriminate | auto ].
      * injection H as <- _ <-. apply effect_none; [ discriminate | auto ].
    + unfold create_shipment in H.
      unbind H as missing Hm.
      destruct missing; [ injection H as <- _ <-; no_effect | ].
      unbind H as shipment_id Hid. unbind H as present Hp.
      destruct present; [ injection H as <- _ <-; no_effect | ].
      unbind H as origin Ho. unbind H as destination Hd.
      unbind H as estimated He. unbind H as shipments' Hs.
      injection H as <- _ <-.
      destruct (dict_contains_false _ _ Hp) as (k & Hk & Hnone).
      destruct (dict_setitem_Ok _ _ _ _ Hs) as (k2 & Hk2 & ->).
      assert (k2 = k) by congruence. subst k2.
      apply effect_shipment; [ exact Hnone | apply hash_Ok; exact Hk ].
    + unfold get_shipment in H. unbind H as present Hp.
      destruct present; cbn [negb] in H.
      * unbind H as shipment Ho. injection H as <- _ <-.
        apply effect_none; [ discriminate | auto ].
      * injection H as <- _ <-. apply effect_none; [ discriminate | auto ].
    + unfold update_shipment_location in H.
      unbind H as present Hp.
      destruct present; cbn [negb] in H; [ | injection H as <- _ <-; no_effect ].
      unbind H as missing Hm.
      destruct missing; [ injection H as <- _ <-; no_effect | ].
      unbind H as shipment Hsh. unbind H as location Hl.
      unbind H as status Hst. unbind H as notes Hn.
      unbind H as shipments' Hs. injection H as <- _ <-.
      destruct (getitem_Ok _ _ _ Hl) as (d & -> & Hloc).
      apply get_Ok_dict in Hst. apply get_Ok_dict in Hn. subst status notes.
      destruct (dict_getitem_Ok _ _ _ Hsh) as (k & Hk & Hlk & _).
      simpl in Hk. injection Hk as <-.
      unfold dict_setitem in Hs. simpl in Hs. injection Hs as <-.
      apply (effect_move st shipment_id d now shipment location Hlk Hloc).
    + unfold list_shipments in H. injection H as <- _ <-.
      apply effect_none; [ discriminate | auto ].
    + unfold get_inventory in H. injection H as <- _ <-.
      apply effect_none; [ discriminate | auto ].
    + unfold add_inventory_item in H.
      unbind H as missing Hm.
      destruct missing; [ injection H as <- _ <-; no_effect | ].
      unbind H as item_id Hid. unbind H as present Hp.
      destruct present; [ injection H as <- _ <-; no_effect | ].
      unbind H as parsed Hq. destruct parsed as [q | early].
      * unbind H as name Hn. unbind H as location Hl.
        unbind H as category Hc. unbind H as inventory' Hs.
        injection H as <- _ <-.
        destruct (dict_contains_false _ _ Hp) as (k & Hk & Hnone).
        destruct (dict_setitem_Ok _ _ _ _ Hs) as (k2 & Hk2 & ->).
        assert (k2 = k) by congruence. subst k2.
        apply effect_item;
          [ exact Hnone | apply hash_Ok; exact Hk
          | eapply parse_quantity_nonneg; eassumption ].
      * injection H as <- ->. apply parse_quantity_inr in Hq.
        simpl in Hq. subst code. no_effect.
    + unfold get_inventory_item in H. unbind H as present Hp.
      destruct present; cbn [negb] in H.
      * unbind H as item Ho. injection H as <- _ <-.
        apply effect_none; [ discriminate | auto ].
      * injection H as <- _ <-. apply effect_none; [ discriminate | auto ].
    + unfold update_stock in H.
      unbind H as present Hp.
      destruct present; cbn [negb] in H; [ | injection H as <- _ <-; no_effect ].
      unbind H as missing Hm.
      destruct missing; [ injection H as <- _ <-; no_effect | ].
      unbind H as parsed Hq. destruct parsed as [q | early].
      * unbind H as item Hi. unbind H as inventory' Hs.
        injection H as <- _ <-.
        destruct (dict_getitem_Ok _ _ _ Hi) as (k & Hk & Hlk & _).
        simpl in Hk. injection Hk as <-.
        unfold dict_setitem in Hs. simpl in Hs. injection Hs as <-.
        apply effect_stock;
          [ exact Hlk | eapply parse_quantity_nonneg; eassumption ].
      * injection H as <- ->. apply parse_quantity_inr in Hq.
        simpl in Hq. subst code. no_effect.
    + unbind H as resp' Hr. injection H as <- ->.
      unfold optimize_route in Hr.
      unbind Hr as missing Hm.
      destruct missing; [ injection Hr as _ <-; no_effect | ].
      unbind Hr as waypoints Hw.
      destruct waypoints; try (injection Hr as _ <-; no_effect).
      unbind Hr as start Hs. unbind Hr as end_ He.
      injection Hr as _ <-. no_effect.
  - unfold get_order, dict_contains in H. simpl in H.
    destruct (lookup (KStr order_id) (orders st)) eqn:E; simpl in H;
      [ unfold dict_getitem in H; simpl in H; rewrite E in H | ];
      discriminate.
  - unfold get_shipment, dict_contains in H. simpl in H.
    destruct (lookup (KStr shipment_id) (shipments st)) eqn:E; simpl in H;
      [ unfold dict_getitem in H; simpl in H; rewrite E in H | ];
      discriminate.
  - unfold get_inventory_item, dict_contains in H. simpl in H.
    destruct (lookup (KStr item_id) (inventory st)) eqn:E; simpl in H;
      [ unfold dict_getitem in H; simpl in H; rewrite E in H | ];
      discriminate.
Qed.

(** Induction over the requests served. *)
Lemma run_invariant (P : store -> Prop) :
  (forall st r, P st -> P (fst (handle st r))) ->
  forall rs st, P st -> P (fst (run st rs)).
Proof.
  intros Hstep rs. induction rs as [| r rs IH]; intros st HP.
  - exact HP.
  - rewrite run_cons. apply IH. apply Hstep. exact HP.
Qed.

Lemma run_relation (R : store -> store -> Prop) :
  (forall st, R st st) ->
  (forall a b c, R a b -> R b c -> R a c) ->
  (forall st r, R st (fst (handle st r))) ->
  forall rs st, R st (fst (run st rs)).
Proof.
  intros Hrefl Htrans Hstep rs. induction rs as [| r rs IH]; intros st.
  - apply Hrefl.
  - rewrite run_cons. eapply Htrans; [ apply Hstep | apply IH ].
Qed.

(** ** The [GET] routes *)

(** A [GET] request leaves the three dictionaries as they are and is
    answered 200 or 404, never 500. *)
Theorem get_requests_read_only (st : store) (r : request) :
  is_get r = true ->
  fst (handle st r) = st
  /\ (status_code st r = 200 \/ status_code st r = 404).
Proof.
  intros Hg. destruct (handle_effect st r); try discriminate Hg.
  split; [ reflexivity | auto ].
Qed.

Lemma get_requests_read_only_example :
  fst (handle shipped_store (GetShipment "SHP-404")) = shipped_store
  /\ (status_code shipped_store (GetShipment "SHP-404") = 200
      \/ status_code shipped_store (GetShipment "SHP-404") = 404).
Proof.
  apply (get_requests_read_only shipped_store (GetShipment "SHP-404")).
  reflexivity.
Defined.

(** ** Keys are only ever added, at the end *)

Lemma keys_assign_absent {V : Type} (k : key) (v : V) (d : pydict V) :
  lookup k d = None -> map fst (assign k v d) = (map fst d ++ [k])%list.
Proof.
  intros H. rewrite (assign_absent k v d H), map_app. reflexivity.
Qed.

Lemma keys_continue_refl (st : store) : keys_continue st st.
Proof.
  repeat split; exists []; rewrite app_nil_r; reflexivity.
Qed.

Lemma keys_continue_trans (a b c : store) :
  keys_continue a b -> keys_continue b c -> keys_continue a c.
Proof.
  intros ((o1 & Ho1) & (s1 & Hs1) & (i1 & Hi1))
         ((o2 & Ho2) & (s2 & Hs2) & (i2 & Hi2)).
  repeat split.
  - exists (o1 ++ o2)%list. rewrite Ho2, Ho1, app_assoc. reflexivity.
  - exists (s1 ++ s2)%list. rewrite Hs2, Hs1, app_assoc. reflexivity.
  - exists (i1 ++ i2)%list. rewrite Hi2, Hi1, app_assoc. reflexivity.
Qed.

Lemma keys_continue_handle (st : store) (r : request) :
  keys_continue st (fst (handle st r)).
Proof.
  destruct (handle_effect st r) as
    [r code Hc Hg | data now k oid c i Hnone Hk
    | data now1 now2 k sid o dst ed Hnone Hk
    | sid d now s loc Hlk Hloc
    | data now k iid nm q l c Hnone Hk Hq
    | iid data now it q Hlk Hq ].
  - apply keys_continue_refl.
  - repeat split; simpl; try (exists []; rewrite app_nil_r; reflexivity).
    exists [k]. apply keys_assign_absent. exact Hnone.
  - repeat split; simpl; try (exists []; rewrite app_nil_r; reflexivity).
    exists [k]. apply keys_assign_absent. exact Hnone.
  - repeat split; simpl; try (exists []; rewrite app_nil_r; reflexivity).
    exists []. rewrite app_nil_r. eapply keys_assign_present. exact Hlk.
  - repeat split; simpl; try (exists []; rewrite app_nil_r; reflexivity).
    exists [k]. apply keys_assign_absent. exact Hnone.
  - repeat split; simpl; try (exists []; rewrite app_nil_r; reflexivity).
    exists []. rewrite app_nil_r. eapply keys_assign_present. exact Hlk.
Qed.

(** Whatever requests are served, no key is removed from [orders],
    [shipments] or [inventory] and none changes place: the keys afterwards
    are the keys before, in the same order, followed by the new ones. *)
Theorem keys_only_appended (st : store) (rs : list request) :
  (exists more,
      map fst (orders (fst (run st rs)))
      = (map fst (orders st) ++ more)%list)
  /\ (exists more,
         map fst (shipments (fst (run st rs)))
         = (map fst (shipments st) ++ more)%list)
  /\ (exists more,
         map fst (inventory (fst (run st rs)))
         = (map fst (inventory st) ++ more)%list).
Proof.
  apply (run_relation keys_continue keys_continue_refl keys_continue_trans
           keys_continue_handle rs st).
Qed.

(** ** The counts are the creations *)

Lemma len_assign_absent {V : Type} (k : key) (v : V) (d : pydict V) :
  lookup k d = None -> len (assign k v d) = len d + 1.
Proof.
  intros H. unfold len. rewrite (assign_absent k v d H), length_app.
  simpl. lia.
Qed.

Lemma len_assign_present {V : Type} (k : key) (v x : V) (d : pydict V) :
  lookup k d = Some x -> len (assign k v d) = len d.
Proof.
  intros H. unfold len. rewrite (length_assign_present k v x d H).
  reflexivity.
Qed.

Lemma handle_lengths (st : store) (r : request) :
  len (orders (fst (handle st r)))
  = len (orders st) + one_if_created is_post_order r (status_code st r)
  /\ len (shipments (fst (handle st r)))
     = len (shipments st)
       + one_if_created is_post_shipment r (status_code st r)
  /\ len (inventory (fst (handle st r)))
     = len (inventory st)
       + one_if_created is_post_inventory r (status_code st r).
Proof.
  unfold one_if_created.
  destruct (handle_effect st r) as
    [r code Hc Hg | data now k oid c i Hnone Hk
    | data now1 now2 k sid o dst ed Hnone Hk
    | sid d now s loc Hlk Hloc
    | data now k iid nm q l c Hnone Hk Hq
    | iid data now it q Hlk Hq ]; simpl.
  - apply Z.eqb_neq in Hc. rewrite Hc.
    rewrite !andb_false_r. repeat split; lia.
  - rewrite (len_assign_absent _ _ _ Hnone). repeat split; lia.
  - rewrite (len_assign_absent _ _ _ Hnone). repeat split; lia.
  - rewrite (len_assign_present _ _ _ _ Hlk). repeat split; lia.
  - rewrite (len_assign_absent _ _ _ Hnone). repeat split; lia.
  - rewrite (len_assign_present _ _ _ _ Hlk). repeat split; lia.
Qed.

Lemma run_step (st : store) (r : request) (rs : list request) :
  run st (r :: rs)
  = (fst (run (fst (handle st r)) rs),
     snd (handle st r) :: snd (run (fst (handle st r)) rs)).
Proof.
  simpl. destruct (handle st r) as [st1 resp]. simpl.
  destruct (run st1 rs). reflexivity.
Qed.

Lemma count_201_cons kind r rs resp resps :
  count_201 kind (r :: rs) (resp :: resps)
  = one_if_created kind r (snd resp) + count_201 kind rs resps.
Proof.
  unfold count_201, one_if_created, len. simpl.
  destruct (kind r && (snd resp =? 201)); simpl List.length; lia.
Qed.

Lemma run_lengths (rs : list request) (st : store) :
  len (orders (fst (run st rs)))
  = len (orders st) + count_201 is_post_order rs (snd (run st rs))
  /\ len (shipments (fst (run st rs)))
     = len (shipments st) + count_201 is_post_shipment rs (snd (run st rs))
  /\ len (inventory (fst (run st rs)))
     = len (inventory st) + count_201 is_post_inventory rs (snd (run st rs)).
Proof.
  revert st. induction rs as [| r rs IH]; intros st.
  - simpl. unfold count_201, len. simpl. repeat split; lia.
  - rewrite run_step. cbn [fst snd]. rewrite !count_201_cons.
    destruct (IH (fst (handle st r))) as (Ho & Hs & Hi).
    destruct (handle_lengths st r) as (Ho1 & Hs1 & Hi1).
    unfold status_code in *.
    rewrite Ho, Hs, Hi, Ho1, Hs1, Hi1. repeat split; lia.
Qed.

(** After any requests served from the empty dictionaries, the count of
    [GET /inventory] is the number of [POST /inventory] requests that were
    answered 201, the count of [GET /shipments] without filter is the number
    of [POST /shipment] requests answered 201, and [orders] holds as many
    records as [POST /order] requests were answered 201. *)
Theorem counts_are_creations (rs : list request) :
  let st := fst (run empty_store rs) in
  let resps := snd (run empty_store rs) in
  snd (handle st GetInventory)
  = (BInventory (count_201 is_post_inventory rs resps)
       (values (inventory st)), 200)
  /\ snd (handle st (GetShipments None))
     = (BShipments (count_201 is_post_shipment rs resps)
          (values (shipments st)), 200)
  /\ len (orders st) = count_201 is_post_order rs resps.
Proof.
  intros st resps.
  destruct (run_lengths rs empty_store) as (Ho & Hs & Hi).
  fold st in Ho, Hs, Hi. fold resps in Ho, Hs, Hi.
  unfold handle. cbn [dispatch]. unfold get_inventory, list_shipments.
  cbn [filter_given snd].
  assert (Hlen : forall V (d : pydict V), len (values d) = len d).
  { intros V d. unfold len, values. rewrite length_map. reflexivity. }
  rewrite Hlen, Hi, Hs, Ho. unfold empty_store, len. simpl.
  repeat split; reflexivity.
Qed.

(** ** Records are stored under their own id *)

Lemma Forall_assign {V : Type} (P : key * V -> Prop) (k : key) (v : V)
  (d : pydict V) :
  Forall P d -> P (k, v) -> Forall P (assign k v d).
Proof.
  induction d as [| [k' v'] d IH]; simpl; intros Hd Hv.
  - constructor; [ exact Hv | constructor ].
  - inversion Hd; subst. destruct (key_eq_dec k' k) as [-> | n].
    + constructor; assumption.
    + constructor; [ assumption | apply IH; assumption ].
Qed.

Lemma key_of_Z_not_KStr (n e : Z) (s : string) : key_of_Z n e <> KStr s.
Proof.
  unfold key_of_Z. destruct n as [| p | p]; try discriminate;
    destruct (odd_part p); discriminate.
Qed.

(** Only the string [s] is filed under [KStr s]. *)
Lemma key_of_KStr (v : json) (s : string) :
  key_of v = Some (KStr s) -> v = JStr s.
Proof.
  destruct v as [| b | n | f | t | l | d]; simpl; try discriminate.
  - intros H. injection H as H. destruct (key_of_Z_not_KStr _ _ _ H).
  - intros H. injection H as H. destruct (key_of_Z_not_KStr _ _ _ H).
  - destruct f; intros H; try discriminate; injection H as H;
      destruct (key_of_Z_not_KStr _ _ _ H).
  - intros H. injection H as ->. reflexivity.
Qed.

(** What a 200 of the three [GET]-by-id routes returns is the record found
    under the string of the path. *)
Lemma get_order_200 st id o :
  snd (handle st (GetOrder id)) = (BOrder o, 200) ->
  lookup (KStr id) (orders st) = Some o.
Proof.
  unfold handle. cbn [dispatch]. unfold get_order, dict_contains. simpl.
  destruct (lookup (KStr id) (orders st)) as [x |] eqn:E; simpl.
  - unfold dict_getitem. simpl. rewrite E. simpl. congruence.
  - discriminate.
Qed.

Lemma get_shipment_200 st id s :
  snd (handle st (GetShipment id)) = (BShipment s, 200) ->
  lookup (KStr id) (shipments st) = Some s.
Proof.
  unfold handle. cbn [dispatch]. unfold get_shipment, dict_contains. simpl.
  destruct (lookup (KStr id) (shipments st)) as [x |] eqn:E; simpl.
  - unfold dict_getitem. simpl. rewrite E. simpl. congruence.
  - discriminate.
Qed.

Lemma get_inventory_item_200 st id it :
  snd (handle st (GetInventoryItem id)) = (BItem it, 200) ->
  lookup (KStr id) (inventory st) = Some it.
Proof.
  unfold handle. cbn [dispatch].
  unfold get_inventory_item, dict_contains. simpl.
  destruct (lookup (KStr id) (inventory st)) as [x |] eqn:E; simpl.
  - unfold dict_getitem. simpl. rewrite E. simpl. congruence.
  - discriminate.
Qed.

(** And conversely. *)
Lemma lookup_get_order st id o :
  lookup (KStr id) (orders st) = Some o ->
  snd (handle st (GetOrder id)) = (BOrder o, 200).
Proof.
  intros E. unfold handle. cbn [dispatch].
  unfold get_order, dict_contains, dict_getitem. simpl. rewrite E.
  reflexivity.
Qed.

Lemma lookup_get_shipment st id s :
  lookup (KStr id) (shipments st) = Some s ->
  snd (handle st (GetShipment id)) = (BShipment s, 200).
Proof.
  intros E. unfold handle. cbn [dispatch].
  unfold get_shipment, dict_contains, dict_getitem. simpl. rewrite E.
  reflexivity.
Qed.

Lemma lookup_get_inventory_item st id it :
  lookup (KStr id) (inventory st) = Some it ->
  snd (handle st (GetInventoryItem id)) = (BItem it, 200).
Proof.
  intros E. unfold handle. cbn [dispatch].
  unfold get_inventory_item, dict_contains, dict_getitem. simpl. rewrite E.
  reflexivity.
Qed.

Lemma keyed_by_handle (st : store) (r : request) :
  store_keyed st -> store_keyed (fst (handle st r)).
Proof.
  intros (Ho & Hs & Hi & Hc). unfold store_keyed, keyed_by in *.
  destruct (handle_effect st r) as
    [r code Hcode Hg | data now k oid c i Hnone Hk
    | data now1 now2 k sid o dst ed Hnone Hk
    | sid d now s loc Hlk Hloc
    | data now k iid nm q l c Hnone Hk Hq
    | iid data now it q Hlk Hq ]; simpl.
  - auto.
  - repeat split; auto.
    + apply Forall_assign; [ exact Ho | exact Hk ].
    + apply Forall_values_assign; [ exact Hc | reflexivity ].
  - repeat split; auto. apply Forall_assign; [ exact Hs | exact Hk ].
  - repeat split; auto. apply Forall_assign; [ exact Hs | simpl ].
    apply lookup_In_pair in Hlk.
    rewrite Forall_forall in Hs. apply (Hs _ Hlk).
  - repeat split; auto. apply Forall_assign; [ exact Hi | exact Hk ].
  - repeat split; auto. apply Forall_assign; [ exact Hi | simpl ].
    apply lookup_In_pair in Hlk.
    rewrite Forall_forall in Hi. apply (Hi _ Hlk).
Qed.

Lemma keyed_by_run (rs : list request) : store_keyed (fst (run empty_store rs)).
Proof.
  apply run_invariant; [ exact keyed_by_handle | ].
  repeat split; constructor.
Qed.

(** After any requests served from the empty dictionaries: the record
    [GET /order/<id>] returns with a 200 has that very string as [order_id]
    and the status "created"; likewise the shipment of [GET /shipment/<id>]
    has it as [shipment_id] and the item of [GET /inventory/<id>] as
    [item_id].  So a record created under an id that is not a string is
    never returned by these routes. *)
Theorem get_returns_the_id_asked (rs : list request) (id : string) :
  let st := fst (run empty_store rs) in
  (forall o, snd (handle st (GetOrder id)) = (BOrder o, 200) ->
             Order.order_id o = JStr id /\ Order.status o = "created")
  /\ (forall s, snd (handle st (GetShipment id)) = (BShipment s, 200) ->
                Shipment.shipment_id s = JStr id)
  /\ (forall it, snd (handle st (GetInventoryItem id)) = (BItem it, 200) ->
                 Item.item_id it = JStr id).
Proof.
  intros st. destruct (keyed_by_run rs) as (Ho & Hs & Hi & Hc).
  fold st in Ho, Hs, Hi, Hc. unfold keyed_by in *.
  rewrite Forall_forall in Ho, Hs, Hi, Hc.
  repeat split.
  - apply get_order_200, lookup_In_pair in H.
    apply key_of_KStr. apply (Ho _ H).
  - apply get_order_200, lookup_In in H. apply (Hc _ H).
  - intros s H. apply get_shipment_200, lookup_In_pair in H.
    apply key_of_KStr. apply (Hs _ H).
  - intros it H. apply get_inventory_item_200, lookup_In_pair in H.
    apply key_of_KStr. apply (Hi _ H).
Qed.

(** On the widget: the item [GET /inventory/ITM-001] returns. *)
Lemma get_returns_the_id_asked_example :
  snd (handle widget_store (GetInventoryItem "ITM-001"))
  = (BItem (Item.mk (JStr "ITM-001") (JStr "Widget") 100 (JStr "Warehouse")
              (JStr "General") "2026-01-01T00:00:00"), 200)
  /\ Item.item_id
       (Item.mk (JStr "ITM-001") (JStr "Widget") 100 (JStr "Warehouse")
          (JStr "General") "2026-01-01T00:00:00")
     = JStr "ITM-001".
Proof.
  split; [ reflexivity | ].
  apply (proj2 (proj2 (get_returns_the_id_asked
                         [PostInventory widget "2026-01-01T00:00:00"]
                         "ITM-001"))).
  reflexivity.
Defined.

(** ** What later requests keep of a stored record *)

(** An order that [GET /order/<id>] returns is returned unchanged after any
    further requests: no route changes or removes a stored order. *)
Theorem orders_never_change (st : store) (rs : list request) (id : string)
  (o : Order.t) :
  snd (handle st (GetOrder id)) = (BOrder o, 200) ->
  snd (handle (fst (run st rs)) (GetOrder id)) = (BOrder o, 200).
Proof.
  intros H. apply lookup_get_order. apply run_keeps_order.
  apply get_order_200. exact H.
Qed.

Lemma orders_never_change_example :
  let st :=
    fst (handle empty_store (PostOrder sample_order "2026-01-01T00:00:00")) in
  let rs :=
    [PostOrder sample_order "2026-01-02T00:00:00";
     PostOrder (JDict [("order_id", JStr "ORD-002")]) "2026-01-03T00:00:00"] in
  snd (handle (fst (run st rs)) (GetOrder "ORD-001"))
  = (BOrder
       (Order.mk (JStr "ORD-001") (JStr "John Doe")
          (JList [JStr "item1"; JStr "item2"]) "created"
          "2026-01-01T00:00:00"), 200).
Proof.
  intros st rs. apply (orders_never_change st rs "ORD-001"). reflexivity.
Defined.

Lemma same_identity_refl (it : Item.t) : same_identity it it.
Proof. repeat split. Qed.

Lemma same_identity_handle st r k it :
  lookup k (inventory st) = Some it ->
  exists it', lookup k (inventory (fst (handle st r))) = Some it'
              /\ same_identity it it'.
Proof.
  intros Hk.
  destruct (handle_effect st r) as
    [r code Hcode Hg | data now k1 oid c i Hnone Hk1
    | data now1 now2 k1 sid o dst ed Hnone Hk1
    | sid d now s loc Hlk Hloc
    | data now k1 iid nm q l c Hnone Hk1 Hq
    | iid data now it1 q Hlk Hq ]; simpl;
    try (exists it; split; [ exact Hk | apply same_identity_refl ]).
  - exists it. split; [ | apply same_identity_refl ].
    rewrite lookup_assign_other; [ exact Hk | congruence ].
  - destruct (key_eq_dec (KStr iid) k) as [<- | n].
    + rewrite lookup_assign_same. eexists. split; [ reflexivity | ].
      assert (it1 = it) by congruence. subst it1. repeat split.
    + exists it. split; [ | apply same_identity_refl ].
      rewrite lookup_assign_other; [ exact Hk | exact n ].
Qed.

Lemma same_identity_run rs : forall st k it,
  lookup k (inventory st) = Some it ->
  exists it', lookup k (inventory (fst (run st rs))) = Some it'
              /\ same_identity it it'.
Proof.
  induction rs as [| r rs IH]; intros st k it Hk.
  - exists it. split; [ exact Hk | apply same_identity_refl ].
  - rewrite run_cons.
    destruct (same_identity_handle st r k it Hk) as (it1 & Hk1 & H1).
    destruct (IH _ _ _ Hk1) as (it2 & Hk2 & H2).
    exists it2. split; [ exact Hk2 | ].
    destruct H1 as (a1 & b1 & c1 & d1), H2 as (a2 & b2 & c2 & d2).
    repeat split; congruence.
Qed.

(** An item that [GET /inventory/<id>] returns is still there after any
    further requests, with the same [item_id], [name], [location] and
    [category]: nothing but its quantity and [last_updated] can change, and
    no route removes it. *)
Theorem items_keep_identity (st : store) (rs : list request) (id : string)
  (it : Item.t) :
  snd (handle st (GetInventoryItem id)) = (BItem it, 200) ->
  exists it',
    snd (handle (fst (run st rs)) (GetInventoryItem id)) = (BItem it', 200)
    /\ Item.item_id it' = Item.item_id it
    /\ Item.name it' = Item.name it
    /\ Item.location it' = Item.location it
    /\ Item.category it' = Item.category it.
Proof.
  intros H. apply get_inventory_item_200 in H.
  destruct (same_identity_run rs _ _ _ H) as (it' & Hk & Hsame).
  exists it'. split; [ apply lookup_get_inventory_item; exact Hk | ].
  exact Hsame.
Qed.

Lemma items_keep_identity_example :
  let rs :=
    [PutInventoryStock "ITM-001" (JDict [("quantity", JInt 150)])
       "2026-01-02T00:00:00";
     PostInventory widget "2026-01-03T00:00:00"] in
  exists it',
    snd (handle (fst (run widget_store rs)) (GetInventoryItem "ITM-001"))
    = (BItem it', 200)
    /\ Item.item_id it' = JStr "ITM-001"
    /\ Item.name it' = JStr "Widget"
    /\ Item.location it' = JStr "Warehouse"
    /\ Item.category it' = JStr "General".
Proof.
  intros rs.
  apply (items_keep_identity widget_store rs "ITM-001"
           (Item.mk (JStr "ITM-001") (JStr "Widget") 100 (JStr "Warehouse")
              (JStr "General") "2026-01-01T00:00:00")).
  reflexivity.
Defined.

Lemma extends_refl (s : Shipment.t) : extends s s.
Proof.
  repeat split. exists []. rewrite app_nil_r. reflexivity.
Qed.

Lemma extends_trans (a b c : Shipment.t) :
  extends a b -> extends b c -> extends a c.
Proof.
  intros (a1 & a2 & a3 & a4 & a5 & m1 & H1) (b1 & b2 & b3 & b4 & b5 & m2 & H2).
  repeat split; try congruence.
  exists (m1 ++ m2)%list. rewrite H2, H1, app_assoc. reflexivity.
Qed.

Lemma extends_handle st r k s :
  lookup k (shipments st) = Some s ->
  exists s', lookup k (shipments (fst (handle st r))) = Some s'
             /\ extends s s'.
Proof.
  intros Hk.
  destruct (handle_effect st r) as
    [r code Hcode Hg | data now k1 oid c i Hnone Hk1
    | data now1 now2 k1 sid o dst ed Hnone Hk1
    | sid d now s1 loc Hlk Hloc
    | data now k1 iid nm q l c Hnone Hk1 Hq
    | iid data now it1 q Hlk Hq ]; simpl;
    try (exists s; split; [ exact Hk | apply extends_refl ]).
  - exists s. split; [ | apply extends_refl ].
    rewrite lookup_assign_other; [ exact Hk | congruence ].
  - destruct (key_eq_dec (KStr sid) k) as [<- | n].
    + rewrite lookup_assign_same. eexists. split; [ reflexivity | ].
      assert (s1 = s) by congruence. subst s1.
      repeat split. simpl. eexists. reflexivity.
    + exists s. split; [ | apply extends_refl ].
      rewrite lookup_assign_other; [ exact Hk | exact n ].
Qed.

Lemma extends_run rs : forall st k s,
  lookup k (shipments st) = Some s ->
  exists s', lookup k (shipments (fst (run st rs))) = Some s'
             /\ extends s s'.
Proof.
  induction rs as [| r rs IH]; intros st k s Hk.
  - exists s. split; [ exact Hk | apply extends_refl ].
  - rewrite run_cons.
    destruct (extends_handle st r k s Hk) as (s1 & Hk1 & H1).
    destruct (IH _ _ _ Hk1) as (s2 & Hk2 & H2).
    exists s2. split; [ exact Hk2 | eapply extends_trans; eassumption ].
Qed.

(** A shipment that [GET /shipment/<id>] returns is still there after any
    further requests, with the same [shipment_id], [origin], [destination],
    [created_at] and [estimated_delivery], and its tracking history only
    grows at the end: the earlier entries stay, in place and unchanged. *)
Theorem shipment_history_only_grows (st : store) (rs : list request)
  (id : string) (s : Shipment.t) :
  snd (handle st (GetShipment id)) = (BShipment s, 200) ->
  exists s' more,
    snd (handle (fst (run st rs)) (GetShipment id)) = (BShipment s', 200)
    /\ Shipment.tracking_history s'
       = (Shipment.tracking_history s ++ more)%list
    /\ Shipment.shipment_id s' = Shipment.shipment_id s
    /\ Shipment.origin s' = Shipment.origin s
    /\ Shipment.destination s' = Shipment.destination s
    /\ Shipment.created_at s' = Shipment.created_at s
    /\ Shipment.estimated_delivery s' = Shipment.estimated_delivery s.
Proof.
  intros H. apply get_shipment_200 in H.
  destruct (extends_run rs _ _ _ H)
    as (s' & Hk & a1 & a2 & a3 & a4 & a5 & more & Hm).
  exists s', more. split; [ apply lookup_get_shipment; exact Hk | ].
  repeat split; assumption.
Qed.

Lemma shipment_history_only_grows_example :
  let rs :=
    [PutShipmentLocation "SHP-001" (JDict [("location", JStr "Chicago")])
       "2026-01-02T00:00:00";
     PostShipment sample_shipment "2026-01-03T00:00:00"
       "2026-01-03T00:00:01"] in
  exists s' more,
    snd (handle (fst (run shipped_store rs)) (GetShipment "SHP-001"))
    = (BShipment s', 200)
    /\ Shipment.tracking_history s'
       = (Shipment.tracking_history shipped ++ more)%list
    /\ Shipment.shipment_id s' = Shipment.shipment_id shipped
    /\ Shipment.origin s' = Shipment.origin shipped
    /\ Shipment.destination s' = Shipment.destination shipped
    /\ Shipment.created_at s' = Shipment.created_at shipped
    /\ Shipment.estimated_delivery s' = Shipment.estimated_delivery shipped.
Proof.
  intros rs.
  apply (shipment_history_only_grows shipped_store rs "SHP-001" shipped).
  reflexivity.
Defined.

(** ** The shape of a stored shipment *)

Lemma shipment_wf_moved s d loc now :
  shipment_wf s -> shipment_wf (moved s d loc now).
Proof.
  intros (first & rest & Hh & Hl & Hs & Hn & Hrest & Hll & Hls).
  exists first, (rest ++ [Entry.mk loc (status_of d) now (Some (notes_of d))])%list.
  simpl. rewrite Hh. repeat split; try assumption.
  - apply Forall_app. split; [ exact Hrest | ].
    constructor; [ simpl; discriminate | constructor ].
  - rewrite last_last. reflexivity.
  - rewrite last_last. reflexivity.
Qed.

Lemma shipment_wf_handle (st : store) (r : request) :
  Forall shipment_wf (values (shipments st)) ->
  Forall shipment_wf (values (shipments (fst (handle st r)))).
Proof.
  intros Hwf.
  destruct (handle_effect st r) as
    [r code Hcode Hg | data now k1 oid c i Hnone Hk1
    | data now1 now2 k1 sid o dst ed Hnone Hk1
    | sid d now s1 loc Hlk Hloc
    | data now k1 iid nm q l c Hnone Hk1 Hq
    | iid data now it1 q Hlk Hq ]; simpl; try exact Hwf.
  - apply Forall_values_assign; [ exact Hwf | ].
    eexists. exists []. simpl. repeat split. constructor.
  - apply Forall_values_assign; [ exact Hwf | ].
    apply shipment_wf_moved. apply lookup_In in Hlk.
    rewrite Forall_forall in Hwf. apply (Hwf _ Hlk).
Qed.

(** After any requests served from the empty dictionaries, every stored
    shipment has a tracking history that starts with the entry of its
    creation (its origin, "pending", no notes), whose later entries all
    carry notes, and whose last entry has the shipment's current location
    and status. *)
Theorem shipments_well_formed (rs : list request) :
  Forall shipment_wf (values (shipments (fst (run empty_store rs)))).
Proof.
  apply (run_invariant (fun st => Forall shipment_wf (values (shipments st)))).
  - exact shipment_wf_handle.
  - constructor.
Qed.

(** ** The order of the checks *)

Lemma get_shipment_code st id :
  status_code st (GetShipment id)
  = match lookup (KStr id) (shipments st) with
    | Some _ => 200
    | None => 404
    end.
Proof.
  unfold status_code, handle. cbn [dispatch].
  unfold get_shipment, dict_contains, dict_getitem. simpl.
  destruct (lookup (KStr id) (shipments st)); reflexivity.
Qed.

Lemma get_inventory_item_code st id :
  status_code st (GetInventoryItem id)
  = match lookup (KStr id) (inventory st) with
    | Some _ => 200
    | None => 404
    end.
Proof.
  unfold status_code, handle. cbn [dispatch].
  unfold get_inventory_item, dict_contains, dict_getitem. simpl.
  destruct (lookup (KStr id) (inventory st)); reflexivity.
Qed.

Lemma found_shipment st id :
  status_code st (GetShipment id) = 200 ->
  exists s, lookup (KStr id) (shipments st) = Some s
            /\ dict_contains (JStr id) (shipments st) = Ok true
            /\ dict_getitem (JStr id) (shipments st) = Ok s.
Proof.
  rewrite get_shipment_code. unfold dict_contains, dict_getitem. simpl.
  destruct (lookup (KStr id) (shipments st)) as [s |]; [ | discriminate ].
  eauto.
Qed.

Lemma found_item st id :
  status_code st (GetInventoryItem id) = 200 ->
  exists it, lookup (KStr id) (inventory st) = Some it
             /\ dict_contains (JStr id) (inventory st) = Ok true
             /\ dict_getitem (JStr id) (inventory st) = Ok it.
Proof.
  rewrite get_inventory_item_code. unfold dict_contains, dict_getitem. simpl.
  destruct (lookup (KStr id) (inventory st)) as [it |]; [ | discriminate ].
  eauto.
Qed.



(** A body with the required fields whose id is a key already is answered
    409 by [add_inventory_item] and by [create_shipment] before anything
    else in it is looked at: the quantity may be negative, not a number or
    infinite, and the answer is still 409, with the store left as it was. *)
Theorem duplicate_id_is_checked_first :
  (forall d now st item_id name quantity,
      assoc "item_id" d = Some item_id ->
      assoc "name" d = Some name ->
      assoc "quantity" d = Some quantity ->
      dict_contains item_id (inventory st) = Ok true ->
      add_inventory_item (JDict d) now st
      = Ok (st, (BError "Item already exists", 409)))
  /\ (forall d now1 now2 st shipment_id origin destination,
         assoc "shipment_id" d = Some shipment_id ->
         assoc "origin" d = Some origin ->
         assoc "destination" d = Some destination ->
         dict_contains shipment_id (shipments st) = Ok true ->
         create_shipment (JDict d) now1 now2 st
         = Ok (st, (BError "Shipment already exists", 409))).
Proof.
  split.
  - intros d now st item_id name quantity Hid Hn Hq Hin.
    unfold add_inventory_item, lacks. rewrite (assoc_truthy _ _ _ Hid).
    simpl. rewrite Hid, Hn, Hq. simpl. rewrite Hin. reflexivity.
  - intros d now1 now2 st shipment_id origin destination Hid Ho Hd Hin.
    unfold create_shipment, lacks. rewrite (assoc_truthy _ _ _ Hid).
    simpl. rewrite Hid, Ho, Hd. simpl. rewrite Hin. reflexivity.
Qed.

Lemma duplicate_id_is_checked_first_example :
  add_inventory_item
    (JDict [("item_id", JStr "ITM-001"); ("name", JStr "Widget");
            ("quantity", JFloat float_inf)])
    "2026-01-02" widget_store
  = Ok (widget_store, (BError "Item already exists", 409)).
Proof.
  apply (proj1 duplicate_id_is_checked_first) with
    (item_id := JStr "ITM-001") (name := JStr "Widget")
    (quantity := JFloat float_inf).
  - reflexivity.
  - reflexivity.
  - reflexivity.
  - reflexivity.
Defined.

(** ** Bodies that are not JSON objects *)

(** A falsy body ([null], [false], [0], [0.0], the empty string, array or
    object) is answered 400 with the route's own message by each of the
    routes that read a body, the two [PUT] routes once the id is found; the
    store is left as it was. *)
Theorem falsy_body_is_rejected (st : store) (data : json) (now now' : string)
  (id : string) :
  truthy data = false ->
  handle st (PostOrder data now)
  = (st, (BError "Invalid order data - order_id is required", 400))
  /\ handle st (PostShipment data now now')
     = (st, (BMissing "Missing required fields"
               ["shipment_id"; "origin"; "destination"], 400))
  /\ handle st (PostInventory data now)
     = (st, (BMissing "Missing required fields"
               ["item_id"; "name"; "quantity"], 400))
  /\ handle st (PostRouteOptimize data)
     = (st, (BMissing "Missing required fields"
               ["start"; "waypoints"; "end"], 400))
  /\ (status_code st (GetShipment id) = 200 ->
      handle st (PutShipmentLocation id data now)
      = (st, (BError "Location is required", 400)))
  /\ (status_code st (GetInventoryItem id) = 200 ->
      handle st (PutInventoryStock id data now)
      = (st, (BError "Quantity is required", 400))).
Proof.
  intros Hf. unfold handle. cbn [dispatch].
  unfold create_order, create_shipment, add_inventory_item, optimize_route,
    update_shipment_location, update_stock, lacks.
  rewrite Hf. cbn [bind]. repeat split.
  - intros H. destruct (found_shipment _ _ H) as (s & _ & -> & _).
    reflexivity.
  - intros H. destruct (found_item _ _ H) as (it & _ & -> & _).
    reflexivity.
Qed.

Lemma falsy_body_is_rejected_example :
  handle widget_store (PostOrder JNull "2026-01-02")
  = (widget_store,
     (BError "Invalid order data - order_id is required", 400)).
Proof.
  apply (falsy_body_is_rejected widget_store JNull "2026-01-02" "2026-01-02"
           "ITM-001").
  reflexivity.
Defined.

Lemma truthy_scalar_contains (data : json) (k : string) :
  truthy_scalar data = true ->
  truthy data = true /\ contains k data = Raise TypeError.
Proof.
  destruct data; simpl; try discriminate; auto.
Qed.

(** A body that is [true] or a number other than zero is answered 500 by
    each of the routes that read a body (the two [PUT] routes once the id
    is found): the membership test on it raises [TypeError], which no
    handler catches.  The store is left as it was. *)
Theorem scalar_body_is_an_internal_error (st : store) (data : json)
  (now now' : string) (id : string) :
  truthy_scalar data = true ->
  handle st (PostOrder data now) = (st, internal_error)
  /\ handle st (PostShipment data now now') = (st, internal_error)
  /\ handle st (PostInventory data now) = (st, internal_error)
  /\ handle st (PostRouteOptimize data) = (st, internal_error)
  /\ (status_code st (GetShipment id) = 200 ->
      handle st (PutShipmentLocation id data now) = (st, internal_error))
  /\ (status_code st (GetInventoryItem id) = 200 ->
      handle st (PutInventoryStock id data now) = (st, internal_error)).
Proof.
  intros Hs. unfold handle. cbn [dispatch].
  unfold create_order, create_shipment, add_inventory_item, optimize_route,
    update_shipment_location, update_stock, lacks.
  destruct (truthy_scalar_contains data "order_id" Hs) as [Ht Hc1].
  destruct (truthy_scalar_contains data "location" Hs) as [_ Hc2].
  destruct (truthy_scalar_contains data "quantity" Hs) as [_ Hc3].
  rewrite Ht, Hc1, Hc2, Hc3.
  unfold shipment_required, inventory_required, route_required.
  cbn [all_in].
  rewrite (proj2 (truthy_scalar_contains data "shipment_id" Hs)).
  rewrite (proj2 (truthy_scalar_contains data "item_id" Hs)).
  rewrite (proj2 (truthy_scalar_contains data "start" Hs)).
  cbn [bind]. repeat split.
  - intros H. destruct (found_shipment _ _ H) as (s & _ & -> & _).
    reflexivity.
  - intros H. destruct (found_item _ _ H) as (it & _ & -> & _).
    reflexivity.
Qed.

Lemma scalar_body_is_an_internal_error_example :
  handle widget_store (PutInventoryStock "ITM-001" (JInt 5) "2026-01-02")
  = (widget_store, internal_error).
Proof.
  apply (scalar_body_is_an_internal_error widget_store (JInt 5) "2026-01-02"
           "2026-01-02" "ITM-001").
  - reflexivity.
  - reflexivity.
Defined.

Lemma getitem_is_object (data : json) (k : string) (v : json) :
  getitem data k = Ok v -> is_object data = true.
Proof.
  intros H. apply getitem_Ok in H. destruct H as (d & -> & _). reflexivity.
Qed.

Lemma parse_quantity_is_object (data : json) (q : Z) :
  parse_quantity data = Ok (inl q) -> is_object data = true.
Proof.
  unfold parse_quantity.
  destruct (getitem data "quantity") as [v | e] eqn:Hv.
  - intros _. eapply getitem_is_object. exact Hv.
  - simpl. destruct e; discriminate.
Qed.

(** A body that is not a JSON object is never accepted: whatever route
    reads it, the store is left as it was and the answer is 400, 404 or
    500, never 200 or 201. *)
Theorem non_object_body_is_never_accepted (st : store) (r : request)
  (data : json) :
  body_of r = Some data -> is_object data = false ->
  fst (handle st r) = st
  /\ (status_code st r = 400 \/ status_code st r = 404
      \/ status_code st r = 500).
Proof.
  intros Hb Hno. unfold status_code, handle.
  destruct (dispatch r st) as [[st' [b code]] | e] eqn:H; simpl;
    [ | auto ].
  destruct r; simpl in Hb; try discriminate; injection Hb as ->;
    cbn [dispatch] in H.
  - unfold create_order in H.
    unbind H as missing Hm.
    destruct missing; [ injection H as <- _ <-; auto | ].
    unbind H as order_id Hid.
    apply getitem_is_object in Hid. congruence.
  - unfold create_shipment in H.
    unbind H as missing Hm.
    destruct missing; [ injection H as <- _ <-; auto | ].
    unbind H as shipment_id Hid.
    apply getitem_is_object in Hid. congruence.
  - unfold update_shipment_location in H.
    unbind H as present Hp.
    destruct present; cbn [negb] in H; [ | injection H as <- _ <-; auto ].
    unbind H as missing Hm.
    destruct missing; [ injection H as <- _ <-; auto | ].
    unbind H as shipment Hsh. unbind H as location Hl.
    apply getitem_is_object in Hl. congruence.
  - unfold add_inventory_item in H.
    unbind H as missing Hm.
    destruct missing; [ injection H as <- _ <-; auto | ].
    unbind H as item_id Hid.
    apply getitem_is_object in Hid. congruence.
  - unfold update_stock in H.
    unbind H as present Hp.
    destruct present; cbn [negb] in H; [ | injection H as <- _ <-; auto ].
    unbind H as missing Hm.
    destruct missing; [ injection H as <- _ <-; auto | ].
    unbind H as parsed Hq. destruct parsed as [q | early].
    + apply parse_quantity_is_object in Hq. congruence.
    + injection H as <- ->. apply parse_quantity_inr in Hq. simpl in Hq.
      auto.
  - unbind H as resp Hr. injection H as <- ->.
    unfold optimize_route in Hr.
    unbind Hr as missing Hm.
    destruct missing; [ injection Hr as _ <-; auto | ].
    unbind Hr as waypoints Hw.
    apply getitem_is_object in Hw. congruence.
Qed.

Lemma non_object_body_is_never_accepted_example :
  fst (handle empty_store
         (PostOrder (JList [JStr "order_id"]) "2026-01-02"))
  = empty_store
  /\ (status_code empty_store
        (PostOrder (JList [JStr "order_id"]) "2026-01-02") = 400
      \/ status_code empty_store
           (PostOrder (JList [JStr "order_id"]) "2026-01-02") = 404
      \/ status_code empty_store
           (PostOrder (JList [JStr "order_id"]) "2026-01-02") = 500).
Proof.
  apply (non_object_body_is_never_accepted empty_store
           (PostOrder (JList [JStr "order_id"]) "2026-01-02")
           (JList [JStr "order_id"])).
  - reflexivity.
  - reflexivity.
Defined.

Lemma contains_true_truthy (data : json) (k : string) :
  String.length k <> 0%nat -> contains k data = Ok true ->
  truthy data = true.
Proof.
  intros Hk. destruct data as [| b | n | f | s | l | d]; simpl;
    try discriminate.
  - destruct s; [ | reflexivity ].
    destruct k; [ destruct Hk; reflexivity | simpl; discriminate ].
  - destruct l; [ discriminate | reflexivity ].
  - destruct d; [ discriminate | reflexivity ].
Qed.

(** A body that is a JSON array with the element "quantity", or a JSON
    string with "quantity" in it, passes the presence check of
    [update_stock]; the subscript on it raises [TypeError] inside the
    [try], so the answer is the 400 of a quantity that is not a valid
    integer.  The same kind of body with "location" makes
    [update_shipment_location], whose subscript is outside any [try],
    answer 500. *)
Theorem sequence_body_passes_the_presence_check (st : store) (id : string)
  (data : json) (now : string) :
  is_sequence data = true ->
  (status_code st (GetInventoryItem id) = 200 ->
   contains "quantity" data = Ok true ->
   handle st (PutInventoryStock id data now)
   = (st, (BError "Quantity must be a valid integer", 400)))
  /\ (status_code st (GetShipment id) = 200 ->
      contains "location" data = Ok true ->
      handle st (PutShipmentLocation id data now) = (st, internal_error)).
Proof.
  intros Hseq. split; intros Hfound Hc.
  - destruct (found_item _ _ Hfound) as (it & _ & Hin & _).
    unfold handle. cbn [dispatch]. unfold update_stock, lacks.
    rewrite Hin. cbn [bind negb].
    rewrite (contains_true_truthy data "quantity"); [ | discriminate | exact Hc ].
    rewrite Hc. cbn [bind negb]. unfold parse_quantity.
    destruct data; try discriminate Hseq; reflexivity.
  - destruct (found_shipment _ _ Hfound) as (s & _ & Hin & Hget).
    unfold handle. cbn [dispatch]. unfold update_shipment_location, lacks.
    rewrite Hin. cbn [bind negb].
    rewrite (contains_true_truthy data "location"); [ | discriminate | exact Hc ].
    rewrite Hc. cbn [bind negb]. rewrite Hget. cbn [bind].
    destruct data; try discriminate Hseq; reflexivity.
Qed.

Lemma sequence_body_passes_the_presence_check_example :
  handle widget_store
    (PutInventoryStock "ITM-001" (JList [JStr "quantity"]) "2026-01-02")
  = (widget_store, (BError "Quantity must be a valid integer", 400))
  /\ handle shipped_store
       (PutShipmentLocation "SHP-001" (JStr "my location") "2026-01-02")
     = (shipped_store, internal_error).
Proof.
  split.
  - apply (proj1 (sequence_body_passes_the_presence_check widget_store
                    "ITM-001" (JList [JStr "quantity"]) "2026-01-02"
                    eq_refl)).
    + reflexivity.
    + reflexivity.
  - apply (proj2 (sequence_body_passes_the_presence_check shipped_store
                    "SHP-001" (JStr "my location") "2026-01-02" eq_refl)).
    + reflexivity.
    + reflexivity.
Defined.

(** ** Creating records: defaults, ids that cannot be keys, reading back *)

(** [create_order] on a JSON object, case by case: without [order_id] the
    answer is 400; with an [order_id] that is a JSON array or object the
    membership test raises [TypeError]; with one that is a key already the
    answer is 409; otherwise the answer is 201 and the record stored and
    returned has [customer] and [items] as the body gives them, [null]
    included, or "Unknown" and the empty list where the body has no such
    key. *)
Theorem create_order_on_objects (d : list (string * json)) (now : string)
  (st : store) :
  match assoc "order_id" d with
  | None =>
      create_order (JDict d) now st
      = Ok (st, (BError "Invalid order data - order_id is required", 400))
  | Some order_id =>
      match key_of order_id with
      | None => create_order (JDict d) now st = Raise TypeError
      | Some k =>
          match lookup k (orders st) with
          | Some _ =>
              create_order (JDict d) now st
              = Ok (st, (BError "Order already exists", 409))
          | None =>
              let order :=
                Order.mk order_id
                  (match assoc "customer" d with
                   | Some c => c
                   | None => JStr "Unknown"
                   end)
                  (match assoc "items" d with
                   | Some i => i
                   | None => JList []
                   end)
                  "created" now in
              create_order (JDict d) now st
              = Ok (set_orders st (assign k order (orders st)),
                    (BOrderMsg "Order created successfully" order, 201))
              /\ get_order order_id
                   (set_orders st (assign k order (orders st)))
                 = Ok (set_orders st (assign k order (orders st)),
                       (BOrder order, 200))
          end
      end
  end.
Proof.
  unfold create_order, lacks.
  destruct (assoc "order_id" d) as [order_id |] eqn:Hid.
  - rewrite (assoc_truthy _ _ _ Hid). simpl. rewrite Hid. simpl.
    unfold dict_contains, dict_setitem, hash.
    destruct (key_of order_id) as [k |] eqn:Hk; simpl; [ | reflexivity ].
    destruct (lookup k (orders st)) eqn:Hl; simpl; [ reflexivity | ].
    split; [ reflexivity | ].
    unfold get_order, dict_contains, dict_getitem, hash. rewrite Hk. simpl.
    rewrite lookup_assign_same. reflexivity.
  - simpl. rewrite Hid. destruct d; reflexivity.
Qed.

(** [add_inventory_item] followed by [get_inventory_item]: for a body with
    the three required fields, an id that is not a key yet and a quantity
    [int()] maps to [n >= 0], the item answered with the 201 is the one read
    back with a 200: the id and name of the body, the quantity [n], the
    [location] and [category] of the body or "Warehouse" and "General" where
    it has none, and the time of the request. *)
Theorem add_then_get_inventory_item d now st item_id name v n :
  assoc "item_id" d = Some item_id ->
  assoc "name" d = Some name ->
  assoc "quantity" d = Some v ->
  dict_contains item_id (inventory st) = Ok false ->
  py_int v = Ok n -> 0 <= n ->
  let item :=
    Item.mk item_id name n
      (match assoc "location" d with Some l => l | None => JStr "Warehouse" end)
      (match assoc "category" d with Some c => c | None => JStr "General" end)
      now in
  exists st',
    add_inventory_item (JDict d) now st
    = Ok (st', (BItemMsg "Inventory item added successfully" item, 201))
    /\ get_inventory_item item_id st' = Ok (st', (BItem item, 200))
    /\ shipments st' = shipments st
    /\ orders st' = orders st.
Proof.
  intros Hid Hname Hv Hnew Hn Hpos item.
  assert (Hgi : getitem (JDict d) "item_id" = Ok item_id)
    by (simpl; rewrite Hid; reflexivity).
  assert (Hgn : getitem (JDict d) "name" = Ok name)
    by (simpl; rewrite Hname; reflexivity).
  assert (Hgv : getitem (JDict d) "quantity" = Ok v)
    by (simpl; rewrite Hv; reflexivity).
  rewrite (add_inventory_item_parse _ now _ _ _ _ Hgi Hgn Hgv Hnew).
  rewrite (parse_quantity_accepted _ _ _ Hgv Hn Hpos). simpl.
  destruct (dict_contains_false _ _ Hnew) as (k & Hk & _).
  unfold dict_setitem. rewrite Hk. simpl.
  eexists. split; [ reflexivity | ].
  unfold get_inventory_item, dict_contains, dict_getitem. rewrite Hk. simpl.
  rewrite lookup_assign_same. repeat split; reflexivity.
Qed.

Lemma add_then_get_inventory_item_example :
  let d :=
    [("item_id", JStr "ITM-002"); ("name", JStr "Gadget");
     ("quantity", JStr " 12 "); ("location", JNull)] in
  let item :=
    Item.mk (JStr "ITM-002") (JStr "Gadget") 12 JNull (JStr "General")
      "2026-01-02" in
  exists st',
    add_inventory_item (JDict d) "2026-01-02" widget_store
    = Ok (st', (BItemMsg "Inventory item added successfully" item, 201))
    /\ get_inventory_item (JStr "ITM-002") st' = Ok (st', (BItem item, 200))
    /\ shipments st' = shipments widget_store
    /\ orders st' = orders widget_store.
Proof.
  intros d item.
  apply (add_then_get_inventory_item d "2026-01-02" widget_store
           (JStr "ITM-002") (JStr "Gadget") (JStr " 12 ") 12).
  - reflexivity.
  - reflexivity.
  - reflexivity.
  - reflexivity.
  - reflexivity.
  - lia.
Defined.

(** An id that is a JSON array or object cannot be a dict key: a body with
    the required fields and such an id makes [create_order],
    [create_shipment] and [add_inventory_item] raise [TypeError] at the
    membership test, so the service answers 500 and stores nothing. *)
Theorem unhashable_id_is_an_internal_error :
  (forall d now st id,
      assoc "order_id" d = Some id -> key_of id = None ->
      handle st (PostOrder (JDict d) now) = (st, internal_error))
  /\ (forall d now1 now2 st id origin destination,
         assoc "shipment_id" d = Some id ->
         assoc "origin" d = Some origin ->
         assoc "destination" d = Some destination ->
         key_of id = None ->
         handle st (PostShipment (JDict d) now1 now2) = (st, internal_error))
  /\ (forall d now st id name quantity,
         assoc "item_id" d = Some id ->
         assoc "name" d = Some name ->
         assoc "quantity" d = Some quantity ->
         key_of id = None ->
         handle st (PostInventory (JDict d) now) = (st, internal_error)).
Proof.
  repeat split.
  - intros d now st id Hid Hk. unfold handle. cbn [dispatch].
    unfold create_order, lacks. rewrite (assoc_truthy _ _ _ Hid).
    simpl. rewrite Hid. simpl. unfold dict_contains, hash. rewrite Hk.
    reflexivity.
  - intros d now1 now2 st id o dst Hid Ho Hd Hk. unfold handle.
    cbn [dispatch]. unfold create_shipment, lacks.
    rewrite (assoc_truthy _ _ _ Hid). simpl. rewrite Hid, Ho, Hd. simpl.
    unfold dict_contains, hash. rewrite Hk. reflexivity.
  - intros d now st id nm q Hid Hn Hq Hk. unfold handle. cbn [dispatch].
    unfold add_inventory_item, lacks. rewrite (assoc_truthy _ _ _ Hid).
    simpl. rewrite Hid, Hn, Hq. simpl.
    unfold dict_contains, hash. rewrite Hk. reflexivity.
Qed.

Lemma unhashable_id_is_an_internal_error_example :
  handle empty_store
    (PostOrder (JDict [("order_id", JList [])]) "2026-01-02")
  = (empty_store, internal_error).
Proof.
  apply (proj1 unhashable_id_is_an_internal_error
           [("order_id", JList [])] "2026-01-02" empty_store (JList [])).
  - reflexivity.
  - reflexivity.
Defined.

(** ** Route optimization, read backwards *)

(** Whenever [optimize_route] answers 200, the body is a JSON object with
    [start], [end] and a list [waypoints], the route answered echoes them,
    [total_stops] is the number of waypoints plus one, hence at least 1, and
    [estimated_time_minutes] is thirty times that, hence at least 30. *)
Theorem optimize_route_200 (data : json) (b : body) :
  optimize_route data = Ok (b, 200) ->
  exists d start l end_,
    data = JDict d
    /\ assoc "start" d = Some start
    /\ assoc "waypoints" d = Some (JList l)
    /\ assoc "end" d = Some end_
    /\ b = BRouteMsg "Route optimized successfully"
             (Route.mk start (JList l) end_ (len l + 1) ((len l + 1) * 30)
                true "optimal")
    /\ 1 <= len l + 1
    /\ 30 <= (len l + 1) * 30.
Proof.
  unfold optimize_route. intros H.
  unbind H as missing Hm. destruct missing; [ discriminate | ].
  unbind H as waypoints Hw.
  destruct waypoints as [| | | | | l |]; try discriminate.
  unbind H as start Hs. unbind H as end_ He. injection H as <-.
  destruct (getitem_Ok _ _ _ Hw) as (d & -> & Hwd).
  simpl in Hs, He.
  destruct (assoc "start" d) as [s0 |] eqn:Hsd; [ | discriminate ].
  destruct (assoc "end" d) as [e0 |] eqn:Hed; [ | discriminate ].
  injection Hs as ->. injection He as ->.
  exists d, start, l, end_. repeat split; try assumption.
  - unfold len. lia.
  - unfold len. lia.
Qed.

Lemma optimize_route_200_example :
  exists d start l end_,
    JDict [("start", JStr "A"); ("waypoints", JList []); ("end", JStr "B")]
    = JDict d
    /\ assoc "start" d = Some start
    /\ assoc "waypoints" d = Some (JList l)
    /\ assoc "end" d = Some end_
    /\ BRouteMsg "Route optimized successfully"
         (Route.mk (JStr "A") (JList []) (JStr "B") 1 30 true "optimal")
       = BRouteMsg "Route optimized successfully"
           (Route.mk start (JList l) end_ (len l + 1) ((len l + 1) * 30)
              true "optimal")
    /\ 1 <= len l + 1
    /\ 30 <= (len l + 1) * 30.
Proof.
  apply (optimize_route_200
           (JDict [("start", JStr "A"); ("waypoints", JList []);
                   ("end", JStr "B")])).
  reflexivity.
Defined.

(** ** Configuration *)

Lemma config_get_config (name : string) :
  config_get name config DevelopmentConfig
  = if String.eqb name "production" then ProductionConfig
    else if String.eqb name "testing" then TestingConfig
    else DevelopmentConfig.
Proof.
  unfold config. cbn [config_get].
  rewrite (String.eqb_sym "development" name),
    (String.eqb_sym "testing" name), (String.eqb_sym "production" name),
    (String.eqb_sym "default" name).
  destruct (String.eqb name "development") eqn:Hd.
  - apply String.eqb_eq in Hd. subst name. reflexivity.
  - destruct (String.eqb name "testing") eqn:Ht.
    + apply String.eqb_eq in Ht. subst name. reflexivity.
    + destruct (String.eqb name "production"); [ reflexivity | ].
      destruct (String.eqb name "default"); reflexivity.
Qed.

(** [get_config] selects by the exact name: "production" gives
    [ProductionConfig], "testing" gives [TestingConfig], and every other
    name, "default", a misspelt or capitalised one and the empty string
    included, gives [DevelopmentConfig], whose [DEBUG] is on.  Without an
    argument the name is [FLASK_ENV], or "development" when that is unset.
    Importing the module raises [ValueError] exactly when [SECRET_KEY] is
    unset or empty, whichever configuration is then asked for. *)
Theorem config_selection (e : environ) (env : option string) :
  let name :=
    match env with
    | Some n => n
    | None => match e "FLASK_ENV" with Some v => v | None => "development" end
    end in
  get_config e env
  = (if String.eqb name "production" then ProductionConfig
     else if String.eqb name "testing" then TestingConfig
     else DevelopmentConfig)
  /\ (DEBUG (get_config e env) = true <->
      name <> "production" /\ name <> "testing")
  /\ (import_get_config e env = Raise ValueError <->
      e "SECRET_KEY" = None \/ e "SECRET_KEY" = Some "")
  /\ (import_get_config e env = Raise ValueError
      \/ import_get_config e env = Ok (get_config e env)).
Proof.
  intros name.
  assert (Hsel : get_config e env
                 = if String.eqb name "production" then ProductionConfig
                   else if String.eqb name "testing" then TestingConfig
                   else DevelopmentConfig).
  { unfold get_config, getenv. fold name.
    destruct env; apply config_get_config. }
  split; [ exact Hsel | split; [ | split ] ].
  - rewrite Hsel.
    destruct (String.eqb name "production") eqn:Hp.
    + apply String.eqb_eq in Hp. simpl.
      split; [ discriminate | intros [H _]; contradiction ].
    + destruct (String.eqb name "testing") eqn:Ht.
      * apply String.eqb_eq in Ht. simpl.
        split; [ discriminate | intros [_ H]; contradiction ].
      * apply String.eqb_neq in Hp, Ht. simpl.
        split; [ auto | reflexivity ].
  - unfold import_get_config, production_secret_key.
    destruct (e "SECRET_KEY") as [k |]; simpl.
    + destruct (String.eqb k "") eqn:Hk; simpl.
      * apply String.eqb_eq in Hk. subst k. split; auto.
      * apply String.eqb_neq in Hk.
        split; [ discriminate | intros [H | H]; congruence ].
    + split; auto.
  - unfold import_get_config.
    destruct (production_secret_key e) as [k | x] eqn:Hk; simpl; auto.
    unfold production_secret_key in Hk.
    destruct (e "SECRET_KEY") as [s |];
      [ destruct (String.eqb s "") | ]; try discriminate;
      injection Hk as <-; auto.
Qed.
